(** * Orchestration layer of the quantum-chemistry PES scanner

    Shallow embedding of [src/src/vqe_runner.py], [src/src/exact_solver.py],
    [src/src/pes_scan.py] and the coordinate construction of
    [src/src/molecules.py].  Python floats are modelled as real numbers;
    Python exceptions and the text written to stdout are threaded through a
    small state-and-exception monad.  The quantum libraries the code calls
    (qiskit's VQE, COBYLA, NumPyMinimumEigensolver, numpy's random
    generator, the chemistry driver behind a molecule builder) are Section
    variables: the repository only orchestrates them. *)

From Stdlib Require Import String Ascii List ZArith Reals Lra Lia.
Import ListNotations.
Open Scope string_scope.

(** ** Exceptions and the effect monad *)

(** A Python exception: a [ValueError] (raised by [run_vqe] itself, or by
    numpy's seeding of its generator), or an exception raised inside a
    library, carried unchanged. *)
Inductive exn : Type :=
| ValueError (msg : string)
| LibraryError (name msg : string).

(** Outcome of a Python call: a value, or a raised exception. *)
Inductive result (A : Type) : Type :=
| Ok (a : A)
| Err (e : exn).
Arguments Ok {A} a.
Arguments Err {A} e.

(** The process state the code touches: what has been printed to stdout. *)
Definition World := list string.

(** A Python statement sequence: state survives an exception (text already
    printed stays printed). *)
Definition M (A : Type) : Type := World -> result A * World.

Module Py.
Definition ret {A} (a : A) : M A := fun w => (Ok a, w).
Definition bind {A B} (m : M A) (k : A -> M B) : M B :=
  fun w => match m w with
           | (Ok a, w') => k a w'
           | (Err e, w') => (Err e, w')
           end.
Definition raise {A} (e : exn) : M A := fun w => (Err e, w).
(** A call into a library that does not write to stdout. *)
Definition lift {A} (r : result A) : M A := fun w => (r, w).
(** [print(s, end=...)], with [s] already carrying its line ending. *)
Definition print (s : string) : M unit := fun w => (Ok tt, app w [s]).
End Py.

Declare Scope py_scope.
Delimit Scope py_scope with py.
Notation "x <- m ;; k" := (Py.bind m (fun x => k))
  (at level 61, m at next level, right associativity) : py_scope.
Notation "' p <- m ;; k" := (Py.bind m (fun x => match x with p => k end))
  (at level 61, p pattern, m at next level, right associativity) : py_scope.
Notation "m ;;; k" := (Py.bind m (fun _ => k))
  (at level 61, right associativity) : py_scope.
Open Scope py_scope.

(** ** Decimal rendering of a [nat] (the [{i + 1}] of an f-string) *)

Fixpoint digits_aux (fuel n : nat) (acc : string) : string :=
  match fuel with
  | O => acc
  | S f =>
      let acc' := String (ascii_of_nat (48 + n mod 10)) acc in
      if Nat.ltb n 10 then acc' else digits_aux f (n / 10) acc'
  end.

Definition nat_to_string (n : nat) : string := digits_aux (S n) n "".

(** ** Library-side data *)

(** The two circuit families of [qiskit.circuit.library] the runner uses. *)
Inductive AnsatzKind : Type := RealAmplitudes | EfficientSU2.

(** An ansatz circuit as constructed by [run_vqe]. *)
Record Ansatz : Type := mkAnsatz {
  ansatz_kind : AnsatzKind;
  ansatz_num_qubits : nat;
  ansatz_reps : nat;
  ansatz_entanglement : string
}.

(** [COBYLA(maxiter=maxiter)]. *)
Record COBYLA : Type := mkCOBYLA { cobyla_maxiter : nat }.

(** The [VQE(estimator=Estimator(), ansatz=..., optimizer=...)] object with
    its [initial_point] attribute set. *)
Record VQE : Type := mkVQE {
  vqe_ansatz : Ansatz;
  vqe_optimizer : COBYLA;
  vqe_initial_point : list R
}.

(** One invocation [callback(eval_count, params, value, std)] by the VQE
    optimisation loop. *)
Record CallbackCall : Type := mkCallbackCall {
  cb_eval_count : nat;
  cb_params : list R;
  cb_value : R;
  cb_std : R
}.

(** The fields of qiskit's [VQEResult] the code reads:
    [result.eigenvalue.real] and [result.optimal_parameters]. *)
Record VQEResult : Type := mkVQEResult {
  eigenvalue_real : R;
  optimal_parameters : list R
}.

(** The dictionary returned by [run_vqe]. *)
Record VqeOutput : Type := mkVqeOutput {
  energy : R;
  optimal_params : list R;
  energy_history : list R;
  num_params : nat;
  ansatz_type : string
}.

(** The four lists [scan_pes] appends to, in the order of the source. *)
Record ScanLists : Type := mkScanLists {
  vqe_energies : list R;
  exact_energies : list R;
  errors : list R;
  nuclear_repulsions : list R
}.

Definition empty_lists : ScanLists := mkScanLists [] [] [] [].

(** A dictionary of lists of floats, keys in insertion order. *)
Definition Table : Type := list (string * list R).

(** [table[key]] on such a dictionary ([None] where Python raises
    [KeyError]). *)
Fixpoint lookup (key : string) (t : Table) : option (list R) :=
  match t with
  | [] => None
  | (k, v) :: t' => if String.eqb k key then Some v else lookup key t'
  end.

(** The four values one iteration of the scan appends. *)
Record Row : Type := mkRow {
  row_vqe : R;
  row_exact : R;
  row_error : R;
  row_nuc : R
}.

Definition row0 : Row := mkRow 0 0 0 0.

(** ** The program *)

Module PES.

Section Program.

(** The qubit operator ([SparsePauliOp]) and the electronic structure
    problem are opaque to the orchestration code. *)
Variable QubitOp Problem : Type.
(** [hamiltonian.num_qubits] *)
Variable num_qubits : QubitOp -> nat.
(** [problem.nuclear_repulsion_energy] *)
Variable nuclear_repulsion_energy : Problem -> R.
(** [ansatz.num_parameters] *)
Variable num_parameters : Ansatz -> nat.

(** numpy's [Generator]: the generator [np.random.default_rng(seed)] makes
    from a non-negative seed, and the unit draw [next_double] every
    [Generator.uniform] sample is made from. *)
Variable Gen : Type.
Variable default_rng : Z -> Gen.
Variable next_double : Gen -> R * Gen.

(** [vqe.compute_minimum_eigenvalue(hamiltonian)]: the optimisation loop,
    returning its result and the callback invocations it made, in order. *)
Variable compute_minimum_eigenvalue :
  VQE -> QubitOp -> result (VQEResult * list CallbackCall).
(** [NumPyMinimumEigensolver().compute_minimum_eigenvalue(h).eigenvalue.real]
    on a freshly constructed solver, as a function of the operator: the
    library state that scipy's ARPACK keeps between calls is left out of the
    scan's model; [ExactSolver] below models [exact_energy] with it. *)
Variable numpy_minimum_eigenvalue : QubitOp -> result R.
(** [format(x, '.kf')] *)
Variable format_fixed : nat -> R -> string.

(** [rng.uniform(low, high, size)]: [size] samples, each
    [low + (high - low) * next_double], advancing the generator. *)
Fixpoint uniform (g : Gen) (low high : R) (size : nat) : list R * Gen :=
  match size with
  | O => ([], g)
  | S k =>
      let (u, g1) := next_double g in
      let (rest, g2) := uniform g1 low high k in
      ((low + (high - low) * u)%R :: rest, g2)
  end.

(** [np.random.default_rng(seed)]: numpy's [SeedSequence] refuses a
    negative integer seed with [ValueError('expected non-negative
    integer')]. *)
Definition np_default_rng (seed : Z) : M Gen :=
  if (seed <? 0)%Z then Py.raise (ValueError "expected non-negative integer")
  else Py.ret (default_rng seed).

(** [def callback(eval_count, params, value, std):
        energy_history.append(value)] *)
Definition callback (energy_history : list R) (c : CallbackCall) : list R :=
  app energy_history [cb_value c].

(** [run_vqe(hamiltonian, ansatz_type, reps, maxiter, seed)] *)
Definition run_vqe (hamiltonian : QubitOp) (ansatz_type : string)
    (reps maxiter : nat) (seed : Z) : M VqeOutput :=
  let num_qubits := num_qubits hamiltonian in
  ansatz <- (if String.eqb ansatz_type "RealAmplitudes" then
               Py.ret (mkAnsatz RealAmplitudes num_qubits reps "linear")
             else if String.eqb ansatz_type "EfficientSU2" then
               Py.ret (mkAnsatz EfficientSU2 num_qubits reps "circular")
             else
               Py.raise (ValueError ("Unknown ansatz type: " ++ ansatz_type))) ;;
  let energy_history := @nil R in
  let optimizer := mkCOBYLA maxiter in
  rng <- np_default_rng seed ;;
  let initial_point := fst (uniform rng (- PI) PI (num_parameters ansatz)) in
  let vqe := mkVQE ansatz optimizer initial_point in
  '(result, calls) <- Py.lift (compute_minimum_eigenvalue vqe hamiltonian) ;;
  let energy_history := fold_left callback calls energy_history in
  Py.ret (mkVqeOutput (eigenvalue_real result) (optimal_parameters result)
            energy_history (num_parameters ansatz) ansatz_type).

(** The statements of [run_vqe] after [vqe.compute_minimum_eigenvalue]:
    the callback has filled [energy_history] and the dictionary is built. *)
Definition vqe_return (ansatz_type : string) (ansatz : Ansatz)
    (r : result (VQEResult * list CallbackCall)) : result VqeOutput :=
  match r with
  | Err e => Err e
  | Ok (result, calls) =>
      Ok (mkVqeOutput (eigenvalue_real result) (optimal_parameters result)
            (fold_left callback calls []) (num_parameters ansatz) ansatz_type)
  end.

(** [exact_energy(hamiltonian)] *)
Definition exact_energy (hamiltonian : QubitOp) : M R :=
  Py.lift (numpy_minimum_eigenvalue hamiltonian).

(** The [for i, d in enumerate(distances)] loop of [scan_pes]; [n] is
    [len(distances)]. *)
Fixpoint scan_loop (molecule_builder : R -> result (QubitOp * Problem))
    (ansatz_type : string) (reps maxiter : nat) (seed : Z) (n i : nat)
    (ds : list R) (acc : ScanLists) : M ScanLists :=
  match ds with
  | [] => Py.ret acc
  | d :: ds' =>
      Py.print ("  [" ++ nat_to_string (i + 1) ++ "/" ++ nat_to_string n
                ++ "] d = " ++ format_fixed 3 d ++ " ..." ++ " ") ;;;
      '(qubit_op, problem) <- Py.lift (molecule_builder d) ;;
      let nuc_repulsion := nuclear_repulsion_energy problem in
      vqe_result <- run_vqe qubit_op ansatz_type reps maxiter
                      (seed + Z.of_nat i)%Z ;;
      let vqe_e := (energy vqe_result + nuc_repulsion)%R in
      ex <- exact_energy qubit_op ;;
      let exact_e := (ex + nuc_repulsion)%R in
      let error := Rabs (vqe_e - exact_e) in
      let acc' := mkScanLists (app (vqe_energies acc) [vqe_e])
                    (app (exact_energies acc) [exact_e])
                    (app (errors acc) [error])
                    (app (nuclear_repulsions acc) [nuc_repulsion]) in
      Py.print ("VQE=" ++ format_fixed 6 vqe_e ++ ", Exact="
                ++ format_fixed 6 exact_e ++ ", Error="
                ++ format_fixed 2 (error * 1000)%R ++ " mHa" ++ "
") ;;;
      scan_loop molecule_builder ansatz_type reps maxiter seed n (S i) ds' acc'
  end.

(** [scan_pes(molecule_builder, distances, ansatz_type, reps, maxiter, seed)];
    [np.array(distances).tolist()] of a list of floats is that list. *)
Definition scan_pes (molecule_builder : R -> result (QubitOp * Problem))
    (distances : list R) (ansatz_type : string) (reps maxiter : nat)
    (seed : Z) : M Table :=
  acc <- scan_loop molecule_builder ansatz_type reps maxiter seed
           (length distances) 0 distances empty_lists ;;
  Py.ret [("distances", distances);
          ("vqe_energies", vqe_energies acc);
          ("exact_energies", exact_energies acc);
          ("errors", errors acc);
          ("nuclear_repulsions", nuclear_repulsions acc)].

(** What one loop iteration of [scan_pes] computes at index [i] and point
    [d], with the printing left out: the first exception raised by the
    builder, the VQE runner or the exact solver, or the row appended. *)
Definition point_outcome (molecule_builder : R -> result (QubitOp * Problem))
    (ansatz_type : string) (reps maxiter : nat) (seed : Z) (i : nat) (d : R)
    : result Row :=
  match molecule_builder d with
  | Err e => Err e
  | Ok (qubit_op, problem) =>
      let nuc_repulsion := nuclear_repulsion_energy problem in
      match fst (run_vqe qubit_op ansatz_type reps maxiter
                   (seed + Z.of_nat i)%Z []) with
      | Err e => Err e
      | Ok vqe_result =>
          match fst (exact_energy qubit_op []) with
          | Err e => Err e
          | Ok ex =>
              let vqe_e := (energy vqe_result + nuc_repulsion)%R in
              let exact_e := (ex + nuc_repulsion)%R in
              Ok (mkRow vqe_e exact_e (Rabs (vqe_e - exact_e)) nuc_repulsion)
          end
      end
  end.

End Program.

End PES.

(** ** [exact_energy] with the library state it touches *)

Module ExactSolver.

Section Solver.

Variable QubitOp : Type.

(** The state the eigensolver library keeps from one call to the next:
    [NumPyMinimumEigensolver] diagonalises a sparse operator with scipy's
    [eigsh], whose ARPACK routine draws its random start vector from a seed
    it saves between calls. *)
Variable LinalgState : Type.

(** [NumPyMinimumEigensolver().compute_minimum_eigenvalue(h).eigenvalue.real]
    on a freshly constructed solver: the value (or exception) computed from
    the library state the call finds, and the library state it leaves. *)
Variable numpy_minimum_eigenvalue :
  QubitOp -> LinalgState -> result R * LinalgState.

(** Code run against the library state. *)
Definition SM (A : Type) : Type := LinalgState -> result A * LinalgState.

Definition ret {A} (a : A) : SM A := fun s => (Ok a, s).
Definition bind {A B} (m : SM A) (k : A -> SM B) : SM B :=
  fun s => match m s with
           | (Ok a, s') => k a s'
           | (Err e, s') => (Err e, s')
           end.

(** [exact_energy(hamiltonian)]: [solver] is a local of the call. *)
Definition exact_energy (hamiltonian : QubitOp) : SM R :=
  fun s => numpy_minimum_eigenvalue hamiltonian s.

(** [x1 = exact_energy(h); x2 = exact_energy(h)] *)
Definition exact_energy_twice (h : QubitOp) : SM (R * R) :=
  bind (exact_energy h) (fun x1 =>
  bind (exact_energy h) (fun x2 => ret (x1, x2))).

End Solver.

End ExactSolver.

(** ** The BeH2 coordinate string of [build_beh2] *)

(** [np.radians] *)
Definition radians (x : R) : R := (x * PI / 180)%R.

Section BeH2.

Variable format_fixed : nat -> R -> string.

(** Be-H equilibrium distance, [d = 1.326]. *)
Definition beh2_d : R := (1326 / 1000)%R.

(** The [atom_string] built by [build_beh2(angle)]. *)
Definition beh2_atom_string (angle : R) : string :=
  let d := beh2_d in
  let half_angle := radians (angle / 2) in
  let h1_y := (d * sin half_angle)%R in
  let h1_z := (d * cos half_angle)%R in
  "Be 0.0 0.0 0.0; "
  ++ "H 0.0 " ++ format_fixed 6 h1_y ++ " " ++ format_fixed 6 h1_z ++ "; "
  ++ "H 0.0 " ++ format_fixed 6 (- h1_y)%R ++ " " ++ format_fixed 6 h1_z.

End BeH2.

(** ** The molecule builders of [src/src/molecules.py] *)

(** [qiskit_nature.units.DistanceUnit] *)
Inductive DistanceUnit : Type := ANGSTROM | BOHR.

(** The arguments of [PySCFDriver(atom=..., basis=..., charge=..., spin=...,
    unit=...)]. *)
Record DriverConfig : Type := mkDriverConfig {
  drv_atom : string;
  drv_basis : string;
  drv_charge : Z;
  drv_spin : Z;
  drv_unit : DistanceUnit
}.

(** Sequencing of library calls that do not print. *)
Definition rbind {A B} (r : result A) (k : A -> result B) : result B :=
  match r with
  | Ok a => k a
  | Err e => Err e
  end.

Module Molecules.

Section Builders.

Variable Problem FermionicOp QubitOp : Type.
(** [driver.run()] *)
Variable pyscf_run : DriverConfig -> result Problem.
(** [problem.hamiltonian.second_q_op()] *)
Variable second_q_op : Problem -> FermionicOp.
(** [JordanWignerMapper().map(op)] *)
Variable jordan_wigner_map : FermionicOp -> result QubitOp.
(** [ActiveSpaceTransformer(num_electrons, num_spatial_orbitals)
    .transform(problem)] *)
Variable active_space_transform : nat -> nat -> Problem -> result Problem.
(** [str(x)], the rendering of [{distance}] in an f-string *)
Variable py_str : R -> string.
(** [format(x, '.kf')] *)
Variable format_fixed : nat -> R -> string.

Definition sto3g_driver (atom_string : string) : DriverConfig :=
  mkDriverConfig atom_string "sto3g" 0 0 ANGSTROM.

(** [build_h2(distance)] *)
Definition build_h2 (distance : R) : result (QubitOp * Problem) :=
  let atom_string := "H 0.0 0.0 0.0; H 0.0 0.0 " ++ py_str distance in
  rbind (pyscf_run (sto3g_driver atom_string)) (fun problem =>
  rbind (jordan_wigner_map (second_q_op problem)) (fun qubit_op =>
  Ok (qubit_op, problem))).

(** [build_lih(distance)] *)
Definition build_lih (distance : R) : result (QubitOp * Problem) :=
  let atom_string := "Li 0.0 0.0 0.0; H 0.0 0.0 " ++ py_str distance in
  rbind (pyscf_run (sto3g_driver atom_string)) (fun problem =>
  rbind (active_space_transform 2 3 problem) (fun problem =>
  rbind (jordan_wigner_map (second_q_op problem)) (fun qubit_op =>
  Ok (qubit_op, problem)))).

(** [build_beh2(angle)] *)
Definition build_beh2 (angle : R) : result (QubitOp * Problem) :=
  let atom_string := beh2_atom_string format_fixed angle in
  rbind (pyscf_run (sto3g_driver atom_string)) (fun problem =>
  rbind (active_space_transform 2 3 problem) (fun problem =>
  rbind (jordan_wigner_map (second_q_op problem)) (fun qubit_op =>
  Ok (qubit_op, problem)))).

End Builders.

End Molecules.

(** ** The plotting functions of [src/src/plotting.py] *)

(** An exception of the plotting code: Python's own on a dict, list or
    object, or one raised inside matplotlib or pathlib. *)
Inductive plot_exn : Type :=
| KeyError (key : string)
| IndexError (msg : string)
| TypeError (msg : string)
| AttributeError (msg : string)
| PlotLibError (name msg : string).

(** A keyword argument value. *)
Inductive Arg : Type := AR (x : R) | AS (s : string) | AB (b : bool).

(** A call into matplotlib or pathlib; axes are numbered as [plt.subplots]
    lays them out. *)
Inductive Call : Type :=
| Mkdir (path : string) (exist_ok : bool)
| Subplots (nrows ncols : nat) (figsize : R * R)
| Plot (ax : nat) (xs ys : list R) (fmt : string) (kwargs : list (string * Arg))
| Axhline (ax : nat) (y : R) (kwargs : list (string * Arg))
| SetXlabel (ax : nat) (label : string) (kwargs : list (string * Arg))
| SetYlabel (ax : nat) (label : string) (kwargs : list (string * Arg))
| SetTitle (ax : nat) (title : string) (kwargs : list (string * Arg))
| Legend (ax : nat) (kwargs : list (string * Arg))
| Grid (ax : nat) (visible : bool) (kwargs : list (string * Arg))
| TightLayout
| Suptitle (title : string) (kwargs : list (string * Arg))
| Savefig (dir filename : string) (kwargs : list (string * Arg))
| Close.

(** What [plt.subplots] returns: one [Axes] object, or an array of them. *)
#[warnings="-register-all"]
Inductive PyAxes : Type :=
| AxObj (id : nat)
| AxArray (items : list PyAxes).

(** A plotting function: the library calls made so far, and an exception
    or a value. *)
Definition PM (A : Type) : Type := list Call -> (A + plot_exn) * list Call.

Module Plt.
Definition ret {A} (a : A) : PM A := fun tr => (inl a, tr).
Definition bind {A B} (m : PM A) (k : A -> PM B) : PM B :=
  fun tr => match m tr with
            | (inl a, tr') => k a tr'
            | (inr e, tr') => (inr e, tr')
            end.
Definition raise {A} (e : plot_exn) : PM A := fun tr => (inr e, tr).
(** [results[key]] *)
Definition getitem (results : Table) (key : string) : PM (list R) :=
  match lookup key results with
  | Some v => ret v
  | None => raise (KeyError key)
  end.
(** [axes[i]] *)
Definition getindex (axes : PyAxes) (i : nat) : PM PyAxes :=
  match axes with
  | AxArray items =>
      match nth_error items i with
      | Some a => ret a
      | None => raise (IndexError "index out of range")
      end
  | AxObj _ => raise (TypeError "'Axes' object is not subscriptable")
  end.
(** A method call [ax.plot(...)] needs an [Axes] object. *)
Definition as_axes (a : PyAxes) : PM nat :=
  match a with
  | AxObj id => ret id
  | AxArray _ => raise (AttributeError "'numpy.ndarray' object has no attribute")
  end.
End Plt.

Declare Scope plt_scope.
Delimit Scope plt_scope with plt.
Notation "x <- m ;; k" := (Plt.bind m (fun x => k))
  (at level 61, m at next level, right associativity) : plt_scope.
Notation "m ;;; k" := (Plt.bind m (fun _ => k))
  (at level 61, right associativity) : plt_scope.

(** A Python [str] is modelled by its sequence of code points, one 8-bit
    character each: the model covers the names whose code points are below
    256 (ASCII and Latin-1).  On those, [str.lower()] maps one code point to
    one: the capitals [A-Z] and [U+00C0-U+00DE] other than the sign
    [U+00D7] go to the code point 32 above, every other one is kept. *)
Definition is_upper_latin1 (n : nat) : bool :=
  (Nat.leb 65 n && Nat.leb n 90) ||
  (Nat.leb 192 n && Nat.leb n 222 && negb (Nat.eqb n 215)).

(** [str.lower()] on one code point below 256. *)
Definition lower_char (c : ascii) : ascii :=
  let n := nat_of_ascii c in
  if is_upper_latin1 n then ascii_of_nat (n + 32) else c.

Fixpoint py_lower (s : string) : string :=
  match s with
  | EmptyString => EmptyString
  | String c s' => String (lower_char c) (py_lower s')
  end.

(** [str.replace(old, new)] for one-character [old] and [new]. *)
Fixpoint py_replace_char (old new : ascii) (s : string) : string :=
  match s with
  | EmptyString => EmptyString
  | String c s' =>
      String (if Ascii.eqb c old then new else c) (py_replace_char old new s')
  end.

(** [molecule_name.lower().replace(" ", "_")] *)
Definition file_slug (molecule_name : string) : string :=
  py_replace_char " " "_" (py_lower molecule_name).

(** A Python dict keyed by strings, in insertion order: [d[key]]. *)
Fixpoint dict_lookup {V} (key : string) (d : list (string * V)) : option V :=
  match d with
  | [] => None
  | (k, v) :: d' => if String.eqb k key then Some v else dict_lookup key d'
  end.

Module Plotting.

Section Plotting.

(** The outcome of a library call given the calls made before it: [None]
    when it returns, [Some (exception, message)] when it raises. *)
Variable lib : list Call -> Call -> option (string * string).

Local Open Scope plt_scope.

(** A library call, recorded in the trace whether it returns or raises. *)
Definition call (c : Call) : PM unit :=
  fun tr => match lib tr c with
            | None => (inl tt, app tr [c])
            | Some (name, msg) => (inr (PlotLibError name msg), app tr [c])
            end.

(** [fig, axes = plt.subplots(nrows, ncols, figsize=...)] *)
Definition subplots (nrows ncols : nat) (figsize : R * R) : PM PyAxes :=
  call (Subplots nrows ncols figsize) ;;;
  Plt.ret (if Nat.eqb (nrows * ncols) 1 then AxObj 0
           else AxArray (map AxObj (seq 0 (nrows * ncols)))).

(** [for i, x in enumerate(xs): body(i, x)] *)
Fixpoint for_enumerate {A} (body : nat -> A -> PM unit) (i : nat) (xs : list A)
    : PM unit :=
  match xs with
  | [] => Plt.ret tt
  | x :: xs' => body i x ;;; for_enumerate body (S i) xs'
  end.

(** [plot_pes(results, molecule_name, save_dir)] *)
Definition plot_pes (results : Table) (molecule_name save_dir : string)
    : PM unit :=
  call (Mkdir save_dir true) ;;;
  axes <- subplots 1 1 (10, 6)%R ;;
  ax <- Plt.as_axes axes ;;
  distances <- Plt.getitem results "distances" ;;
  exact <- Plt.getitem results "exact_energies" ;;
  call (Plot ax distances exact "o-"
          [("color", AS "#2C3E50"); ("linewidth", AR 2); ("markersize", AR 6);
           ("label", AS "Exact (FCI)")]) ;;;
  vqe <- Plt.getitem results "vqe_energies" ;;
  call (Plot ax distances vqe "s--"
          [("color", AS "#FF6B6B"); ("linewidth", AR 2); ("markersize", AR 6);
           ("alpha", AR (8 / 10)); ("label", AS "VQE")]) ;;;
  call (SetXlabel ax "Distance / Angle" [("fontsize", AR 12)]) ;;;
  call (SetYlabel ax "Energy (Hartree)" [("fontsize", AR 12)]) ;;;
  call (SetTitle ax (molecule_name ++ " Potential Energy Surface") []) ;;;
  call (Legend ax [("fontsize", AR 11)]) ;;;
  call (Grid ax true [("alpha", AR (3 / 10))]) ;;;
  call TightLayout ;;;
  let filename := "pes_" ++ file_slug molecule_name ++ ".png" in
  call (Savefig save_dir filename [("dpi", AR 150)]) ;;;
  call Close.

(** [plot_energy_error(results, molecule_name, save_dir)] *)
Definition plot_energy_error (results : Table) (molecule_name save_dir : string)
    : PM unit :=
  call (Mkdir save_dir true) ;;;
  axes <- subplots 1 1 (10, 5)%R ;;
  ax <- Plt.as_axes axes ;;
  distances <- Plt.getitem results "distances" ;;
  errs <- Plt.getitem results "errors" ;;
  let errors_mha := map (fun e => e * 1000)%R errs in
  call (Plot ax distances errors_mha "o-"
          [("color", AS "#E74C3C"); ("linewidth", AR 2); ("markersize", AR 8)]) ;;;
  call (Axhline ax (16 / 10)
          [("color", AS "#2ECC71"); ("linestyle", AS "--");
           ("linewidth", AR (15 / 10)); ("alpha", AR (7 / 10));
           ("label", AS "Chemical accuracy (1.6 mHa)")]) ;;;
  call (SetXlabel ax "Distance / Angle" [("fontsize", AR 12)]) ;;;
  call (SetYlabel ax "|VQE - Exact| (mHa)" [("fontsize", AR 12)]) ;;;
  let title := "VQE Energy Error" in
  let title := if String.eqb molecule_name "" then title
               else molecule_name ++ ": " ++ title in
  call (SetTitle ax title []) ;;;
  call (Legend ax [("fontsize", AR 11)]) ;;;
  call (Grid ax true [("alpha", AR (3 / 10))]) ;;;
  call TightLayout ;;;
  let filename := "energy_error_" ++ file_slug molecule_name ++ ".png" in
  let filename := if String.eqb molecule_name "" then "energy_error.png"
                  else filename in
  call (Savefig save_dir filename [("dpi", AR 150)]) ;;;
  call Close.

Definition colors_exact : list string := ["#2C3E50"; "#1A5276"; "#1B4F72"].
Definition colors_vqe : list string := ["#FF6B6B"; "#4ECDC4"; "#45B7D1"].

(** The body of the loop of [plot_multi_molecule_comparison]. *)
Definition multi_body (axes : PyAxes) (i : nat) (item : string * Table)
    : PM unit :=
  let (name, results) := item in
  a <- Plt.getindex axes i ;;
  ax <- Plt.as_axes a ;;
  distances <- Plt.getitem results "distances" ;;
  exact <- Plt.getitem results "exact_energies" ;;
  call (Plot ax distances exact "o-"
          [("color", AS (nth (i mod length colors_exact) colors_exact ""));
           ("linewidth", AR 2); ("markersize", AR 5);
           ("label", AS "Exact (FCI)")]) ;;;
  vqe <- Plt.getitem results "vqe_energies" ;;
  call (Plot ax distances vqe "s--"
          [("color", AS (nth (i mod length colors_vqe) colors_vqe ""));
           ("linewidth", AR 2); ("markersize", AR 5); ("alpha", AR (8 / 10));
           ("label", AS "VQE")]) ;;;
  call (SetXlabel ax "Distance / Angle" [("fontsize", AR 11)]) ;;;
  call (SetYlabel ax "Energy (Ha)" [("fontsize", AR 11)]) ;;;
  call (SetTitle ax name [("fontsize", AR 12)]) ;;;
  call (Legend ax [("fontsize", AR 9)]) ;;;
  call (Grid ax true [("alpha", AR (3 / 10))]).

(** [plot_multi_molecule_comparison(results_dict, save_dir)] *)
Definition plot_multi_molecule_comparison (results_dict : list (string * Table))
    (save_dir : string) : PM unit :=
  call (Mkdir save_dir true) ;;;
  let n_molecules := length results_dict in
  axes <- subplots 1 n_molecules (6 * INR n_molecules, 5)%R ;;
  let axes := if Nat.eqb n_molecules 1 then AxArray [axes] else axes in
  for_enumerate (multi_body axes) 0 results_dict ;;;
  call (Suptitle "Potential Energy Surfaces: VQE vs Exact"
          [("fontsize", AR 14); ("y", AR (102 / 100))]) ;;;
  call TightLayout ;;;
  call (Savefig save_dir "multi_molecule_comparison.png"
          [("dpi", AR 150); ("bbox_inches", AS "tight")]) ;;;
  call Close.

Definition ansatz_colors : list (string * string) :=
  [("RealAmplitudes", "#FF6B6B"); ("EfficientSU2", "#4ECDC4")].

(** [colors.get(name, 'gray')] *)
Definition color_of (name : string) : string :=
  match dict_lookup name ansatz_colors with
  | Some c => c
  | None => "gray"
  end.

(** [results_by_ansatz[key]] *)
Definition dict_getitem (d : list (string * Table)) (key : string) : PM Table :=
  match dict_lookup key d with
  | Some v => Plt.ret v
  | None => Plt.raise (KeyError key)
  end.

(** [list(results_by_ansatz.keys())[0]] *)
Definition first_key_of (d : list (string * Table)) : PM string :=
  match map fst d with
  | k :: _ => Plt.ret k
  | [] => Plt.raise (IndexError "list index out of range")
  end.

(** The body of the first loop of [plot_ansatz_comparison]. *)
Definition ansatz_vqe_body (ax : nat) (distances : list R) (_ : nat)
    (item : string * Table) : PM unit :=
  let (name, results) := item in
  vqe <- Plt.getitem results "vqe_energies" ;;
  call (Plot ax distances vqe "s--"
          [("color", AS (color_of name)); ("linewidth", AR 2);
           ("markersize", AR 5); ("alpha", AR (8 / 10));
           ("label", AS ("VQE (" ++ name ++ ")"))]).

(** The body of the second loop of [plot_ansatz_comparison]. *)
Definition ansatz_error_body (ax1 : nat) (distances : list R) (_ : nat)
    (item : string * Table) : PM unit :=
  let (name, results) := item in
  errs <- Plt.getitem results "errors" ;;
  let errors_mha := map (fun e => e * 1000)%R errs in
  call (Plot ax1 distances errors_mha "o-"
          [("color", AS (color_of name)); ("linewidth", AR 2);
           ("markersize", AR 6); ("label", AS name)]).

(** [plot_ansatz_comparison(results_by_ansatz, molecule_name, save_dir)] *)
Definition plot_ansatz_comparison (results_by_ansatz : list (string * Table))
    (molecule_name save_dir : string) : PM unit :=
  call (Mkdir save_dir true) ;;;
  axes <- subplots 1 2 (14, 5)%R ;;
  a <- Plt.getindex axes 0 ;;
  ax <- Plt.as_axes a ;;
  first_key <- first_key_of results_by_ansatz ;;
  first <- dict_getitem results_by_ansatz first_key ;;
  distances <- Plt.getitem first "distances" ;;
  first' <- dict_getitem results_by_ansatz first_key ;;
  exact <- Plt.getitem first' "exact_energies" ;;
  call (Plot ax distances exact "o-"
          [("color", AS "#2C3E50"); ("linewidth", AR 2); ("markersize", AR 5);
           ("label", AS "Exact (FCI)")]) ;;;
  for_enumerate (ansatz_vqe_body ax distances) 0 results_by_ansatz ;;;
  call (SetXlabel ax "Distance (A)" [("fontsize", AR 11)]) ;;;
  call (SetYlabel ax "Energy (Ha)" [("fontsize", AR 11)]) ;;;
  call (SetTitle ax (molecule_name ++ ": PES by Ansatz") []) ;;;
  call (Legend ax [("fontsize", AR 9)]) ;;;
  call (Grid ax true [("alpha", AR (3 / 10))]) ;;;
  a1 <- Plt.getindex axes 1 ;;
  ax1 <- Plt.as_axes a1 ;;
  for_enumerate (ansatz_error_body ax1 distances) 0 results_by_ansatz ;;;
  call (Axhline ax1 (16 / 10)
          [("color", AS "#2ECC71"); ("linestyle", AS "--");
           ("linewidth", AR (15 / 10)); ("alpha", AR (7 / 10));
           ("label", AS "Chemical accuracy")]) ;;;
  call (SetXlabel ax1 "Distance (A)" [("fontsize", AR 11)]) ;;;
  call (SetYlabel ax1 "|VQE - Exact| (mHa)" [("fontsize", AR 11)]) ;;;
  call (SetTitle ax1 (molecule_name ++ ": VQE Error by Ansatz") []) ;;;
  call (Legend ax1 [("fontsize", AR 9)]) ;;;
  call (Grid ax1 true [("alpha", AR (3 / 10))]) ;;;
  call TightLayout ;;;
  let filename := "ansatz_comparison_" ++ py_lower molecule_name ++ ".png" in
  call (Savefig save_dir filename [("dpi", AR 150)]) ;;;
  call Close.

End Plotting.

End Plotting.

(** The [Plot] calls of a trace, in order. *)
Definition is_plot (c : Call) : bool :=
  match c with
  | Plot _ _ _ _ _ => true
  | _ => false
  end.

Definition plot_calls (calls : list Call) : list Call := filter is_plot calls.

(** ** A concrete instance of the libraries, for evaluating the program *)

Module Demo.
Definition num_qubits (_ : unit) : nat := 2.
Definition nuclear_repulsion_energy (_ : unit) : R := 1%R.
Definition num_parameters (_ : Ansatz) : nat := 4.
Definition default_rng (seed : Z) : nat := Z.to_nat seed.
Definition next_double (g : nat) : R * nat := (0%R, S g).
Definition compute_minimum_eigenvalue (_ : VQE) (_ : unit)
  : result (VQEResult * list CallbackCall) :=
  Ok (mkVQEResult (-1)%R [], [mkCallbackCall 1 [] (-1)%R 0]).
Definition numpy_minimum_eigenvalue (_ : unit) : result R := Ok (-1)%R.
(** An ARPACK run whose result moves by [2^-52] with its random start
    vector, and a start-vector seed that alternates between calls. *)
Definition ulp : R := (/ 4503599627370496)%R.
Definition arpack_minimum_eigenvalue (_ : unit) (seed : bool) : result R * bool :=
  (Ok (if seed then -1 + ulp else -1)%R, negb seed).
Definition format_fixed (_ : nat) (_ : R) : string := "0.0".
Definition builder (_ : R) : result (unit * unit) := Ok (tt, tt).
(** A builder whose chemistry driver raises. *)
Definition failing_builder (_ : R) : result (unit * unit) :=
  Err (LibraryError "RuntimeError" "scf").

Definition run_vqe :=
  PES.run_vqe unit num_qubits num_parameters nat default_rng next_double
    compute_minimum_eigenvalue.
Definition exact_energy := PES.exact_energy unit numpy_minimum_eigenvalue.
Definition scan_pes :=
  PES.scan_pes unit unit num_qubits nuclear_repulsion_energy num_parameters
    nat default_rng next_double compute_minimum_eigenvalue
    numpy_minimum_eigenvalue format_fixed.
Definition point_outcome :=
  PES.point_outcome unit unit num_qubits nuclear_repulsion_energy
    num_parameters nat default_rng next_double compute_minimum_eigenvalue
    numpy_minimum_eigenvalue.
(** The molecule pipeline: a problem is its number of spatial orbitals, a
    fermionic operator its number of spin orbitals over two, a qubit
    operator its number of qubits. *)
Definition pyscf_run (_ : DriverConfig) : result nat := Ok 6.
Definition active_space_transform (_ : nat) (num_spatial_orbitals : nat) (_ : nat)
  : result nat := Ok num_spatial_orbitals.
Definition second_q_op (p : nat) : nat := p.
Definition jordan_wigner_map (n : nat) : result nat := Ok (2 * n).
Definition py_str (_ : R) : string := "1.6".
Definition build_h2 :=
  Molecules.build_h2 nat nat nat pyscf_run second_q_op jordan_wigner_map py_str.
Definition build_lih :=
  Molecules.build_lih nat nat nat pyscf_run second_q_op jordan_wigner_map
    active_space_transform py_str.
Definition build_beh2 :=
  Molecules.build_beh2 nat nat nat pyscf_run second_q_op jordan_wigner_map
    active_space_transform format_fixed.
(** matplotlib and pathlib returning from every call, and a [save_dir] that
    exists as a regular file. *)
Definition lib (_ : list Call) (_ : Call) : option (string * string) := None.
Definition lib_dir_is_file (_ : list Call) (c : Call) : option (string * string) :=
  match c with
  | Mkdir _ _ => Some ("FileExistsError", "[Errno 17] File exists")
  | _ => None
  end.
End Demo.

(** ** Properties of the program *)

Example nat_to_string_ex : nat_to_string 120 = "120".
Proof. reflexivity. Qed.

Section Proofs.

Variable QubitOp Problem : Type.
Variable num_qubits : QubitOp -> nat.
Variable nuclear_repulsion_energy : Problem -> R.
Variable num_parameters : Ansatz -> nat.
Variable Gen : Type.
Variable default_rng : Z -> Gen.
Variable next_double : Gen -> R * Gen.
Variable compute_minimum_eigenvalue :
  VQE -> QubitOp -> result (VQEResult * list CallbackCall).
Variable numpy_minimum_eigenvalue : QubitOp -> result R.
Variable format_fixed : nat -> R -> string.

Local Abbreviation run_vqe :=
  (PES.run_vqe QubitOp num_qubits num_parameters Gen default_rng next_double
     compute_minimum_eigenvalue).
Local Abbreviation uniform := (PES.uniform Gen next_double).
Local Abbreviation vqe_return := (PES.vqe_return num_parameters).
Local Abbreviation exact_energy := (PES.exact_energy QubitOp numpy_minimum_eigenvalue).
Local Abbreviation scan_loop :=
  (PES.scan_loop QubitOp Problem num_qubits nuclear_repulsion_energy num_parameters
     Gen default_rng next_double compute_minimum_eigenvalue
     numpy_minimum_eigenvalue format_fixed).
Local Abbreviation scan_pes :=
  (PES.scan_pes QubitOp Problem num_qubits nuclear_repulsion_energy num_parameters
     Gen default_rng next_double compute_minimum_eigenvalue
     numpy_minimum_eigenvalue format_fixed).
Local Abbreviation point_outcome :=
  (PES.point_outcome QubitOp Problem num_qubits nuclear_repulsion_energy
     num_parameters Gen default_rng next_double compute_minimum_eigenvalue
     numpy_minimum_eigenvalue).

(** [run_vqe] neither reads nor writes stdout. *)
Lemma run_vqe_world (h : QubitOp) (name : string) (reps maxiter : nat)
    (seed : Z) (w : World) :
  run_vqe h name reps maxiter seed w = (fst (run_vqe h name reps maxiter seed []), w).
Proof.
  unfold PES.run_vqe, PES.np_default_rng, Py.bind, Py.ret, Py.raise, Py.lift.
  destruct (String.eqb name "RealAmplitudes"); [|destruct (String.eqb name "EfficientSU2")];
    try reflexivity; destruct (seed <? 0)%Z; try reflexivity;
    match goal with |- context [compute_minimum_eigenvalue ?v h] =>
      destruct (compute_minimum_eigenvalue v h) as [[? ?]|?] end; reflexivity.
Qed.

Lemma exact_energy_world (h : QubitOp) (w : World) :
  exact_energy h w = (numpy_minimum_eigenvalue h, w).
Proof. reflexivity. Qed.

(** The loop either appends one row per point, each the outcome of that point
    at its own index, or stops at the first point whose outcome is an
    exception and raises that exception. *)
Lemma scan_loop_spec (builder : R -> result (QubitOp * Problem))
    (name : string) (reps maxiter : nat) (seed : Z) (n : nat) :
  forall ds i acc w,
  match scan_loop builder name reps maxiter seed n i ds acc w with
  | (Ok t, _) =>
      exists rows, length rows = length ds /\
        t = mkScanLists (vqe_energies acc ++ map row_vqe rows)
              (exact_energies acc ++ map row_exact rows)
              (errors acc ++ map row_error rows)
              (nuclear_repulsions acc ++ map row_nuc rows) /\
        forall k, k < length ds ->
          point_outcome builder name reps maxiter seed (i + k) (nth k ds 0%R)
          = Ok (nth k rows row0)
  | (Err e, _) =>
      exists k, k < length ds /\
        (forall j, j < k -> exists r,
           point_outcome builder name reps maxiter seed (i + j) (nth j ds 0%R)
           = Ok r) /\
        point_outcome builder name reps maxiter seed (i + k) (nth k ds 0%R)
        = Err e
  end.
Proof.
  induction ds as [|d ds IH]; intros i acc w.
  - simpl. exists []. split; [reflexivity|]. split.
    + destruct acc; simpl; rewrite !app_nil_r; reflexivity.
    + intros k Hk. simpl in Hk. lia.
  - cbn [PES.scan_loop Py.bind Py.print Py.lift].
    assert (Hpo : forall k, point_outcome builder name reps maxiter seed k d =
      match builder d with
      | Err e => Err e
      | Ok (op, pb) =>
          match fst (run_vqe op name reps maxiter (seed + Z.of_nat k)%Z []) with
          | Err e => Err e
          | Ok vr =>
              match numpy_minimum_eigenvalue op with
              | Err e => Err e
              | Ok ex =>
                  Ok (mkRow (energy vr + nuclear_repulsion_energy pb)%R
                        (ex + nuclear_repulsion_energy pb)%R
                        (Rabs (energy vr + nuclear_repulsion_energy pb -
                               (ex + nuclear_repulsion_energy pb)))%R
                        (nuclear_repulsion_energy pb))
              end
          end
      end) by reflexivity.
    destruct (builder d) as [[op pb]|e] eqn:Hb.
    2:{ exists 0. repeat split; [simpl; lia| intros j Hj; lia|].
        rewrite Nat.add_0_r. simpl nth. rewrite Hpo. reflexivity. }
    unfold Py.bind. rewrite run_vqe_world.
    destruct (fst (run_vqe op name reps maxiter (seed + Z.of_nat i)%Z [])) as [vr|e] eqn:Hv.
    2:{ exists 0. repeat split; [simpl; lia| intros j Hj; lia|].
        rewrite Nat.add_0_r. simpl nth. rewrite Hpo; rewrite ?Hv; reflexivity. }
    cbv beta iota. rewrite exact_energy_world.
    destruct (numpy_minimum_eigenvalue op) as [ex|e] eqn:Hx.
    2:{ exists 0. repeat split; [simpl; lia| intros j Hj; lia|].
        rewrite Nat.add_0_r. simpl nth. rewrite Hpo; rewrite ?Hv, ?Hx; reflexivity. }
    cbv beta iota.
    set (r := mkRow (energy vr + nuclear_repulsion_energy pb)%R
                (ex + nuclear_repulsion_energy pb)%R
                (Rabs (energy vr + nuclear_repulsion_energy pb -
                       (ex + nuclear_repulsion_energy pb)))%R
                (nuclear_repulsion_energy pb)).
    assert (Hr : point_outcome builder name reps maxiter seed i d = Ok r)
      by (rewrite Hpo; rewrite ?Hv, ?Hx; reflexivity).
    unfold Py.print; cbv beta iota.
    lazymatch goal with
    | |- match scan_loop _ _ _ _ _ _ _ _ ?acc' ?w' with _ => _ end =>
        specialize (IH (S i) acc' w');
        destruct (scan_loop builder name reps maxiter seed n (S i) ds acc' w')
          as [[t|e] w''] eqn:Hl
    end.
    + destruct IH as (rows & Hlen & Ht & Hk).
      exists (r :: rows). split; [simpl; lia|]. split.
      * rewrite Ht. simpl. rewrite <- !app_assoc. reflexivity.
      * intros [|k] Hk'.
        -- rewrite Nat.add_0_r. exact Hr.
        -- simpl nth. replace (i + S k) with (S i + k) by lia.
           apply Hk. simpl in Hk'. lia.
    + destruct IH as (k & Hk & Hpre & Hfail).
      exists (S k). split; [simpl; lia|]. split.
      * intros [|j] Hj.
        -- exists r. rewrite Nat.add_0_r. exact Hr.
        -- simpl nth. replace (i + S j) with (S i + j) by lia.
           apply Hpre. lia.
      * simpl nth. replace (i + S k) with (S i + k) by lia. exact Hfail.
Qed.

(** Each draw of [rng.uniform(low, high, size)] lies in [[low, high]]. *)
Lemma uniform_spec (Hnd : forall g, (0 <= fst (next_double g) < 1)%R)
    (low high : R) (Hlh : (low <= high)%R) :
  forall size g,
    length (fst (uniform g low high size)) = size /\
    Forall (fun x => low <= x <= high)%R (fst (uniform g low high size)).
Proof.
  induction size as [|k IH]; intros g; simpl.
  - split; [reflexivity | constructor].
  - specialize (Hnd g). destruct (next_double g) as [u g1]. simpl in Hnd.
    specialize (IH g1). destruct (uniform g1 low high k) as [rest g2].
    simpl in *. destruct IH as [Hl Hf]. split; [lia|].
    constructor; [|exact Hf]. nra.
Qed.

Lemma nth_map_row (f : Row -> R) (rows : list Row) (k : nat) :
  f row0 = 0%R -> nth k (map f rows) 0%R = f (nth k rows row0).
Proof. intros H. rewrite <- H at 1. apply map_nth. Qed.

(** On success the table has the five keys in order; each column is one
    value per point, the row of that point at its own index. *)
Lemma scan_pes_rows (builder : R -> result (QubitOp * Problem))
    (ds : list R) (name : string) (reps maxiter : nat) (seed : Z)
    (w : World) (table : Table) (w' : World) :
  scan_pes builder ds name reps maxiter seed w = (Ok table, w') ->
  exists rows, length rows = length ds /\
    table = [("distances", ds);
             ("vqe_energies", map row_vqe rows);
             ("exact_energies", map row_exact rows);
             ("errors", map row_error rows);
             ("nuclear_repulsions", map row_nuc rows)] /\
    forall k, k < length ds ->
      point_outcome builder name reps maxiter seed k (nth k ds 0%R)
      = Ok (nth k rows row0).
Proof.
  intros H. unfold PES.scan_pes, Py.bind in H.
  pose proof (scan_loop_spec builder name reps maxiter seed (length ds) ds 0
                empty_lists w) as Hs.
  destruct (scan_loop builder name reps maxiter seed (length ds) 0 ds
              empty_lists w) as [[t|e] w1]; [|discriminate H].
  unfold Py.ret in H. injection H as <- _.
  destruct Hs as (rows & Hlen & -> & Hk).
  exists rows. split; [exact Hlen|]. split; [reflexivity|]. exact Hk.
Qed.

(** A successful point outcome is made of the three calls' results. *)
Lemma point_outcome_ok (builder : R -> result (QubitOp * Problem))
    (name : string) (reps maxiter : nat) (seed : Z) (k : nat) (d : R) (r : Row) :
  point_outcome builder name reps maxiter seed k d = Ok r ->
  exists op pb vr ex,
    builder d = Ok (op, pb) /\
    (forall w0, run_vqe op name reps maxiter (seed + Z.of_nat k)%Z w0 = (Ok vr, w0)) /\
    (forall w0, exact_energy op w0 = (Ok ex, w0)) /\
    r = mkRow (energy vr + nuclear_repulsion_energy pb)%R
          (ex + nuclear_repulsion_energy pb)%R
          (Rabs (energy vr + nuclear_repulsion_energy pb -
                 (ex + nuclear_repulsion_energy pb)))%R
          (nuclear_repulsion_energy pb).
Proof.
  unfold PES.point_outcome.
  destruct (builder d) as [[op pb]|e]; [|discriminate].
  destruct (fst (run_vqe op name reps maxiter (seed + Z.of_nat k)%Z [])) as [vr|e]
    eqn:Hv; [|discriminate].
  destruct (fst (exact_energy op [])) as [ex|e] eqn:Hx; [|discriminate].
  intros H. injection H as <-.
  exists op, pb, vr, ex. split; [reflexivity|]. split.
  - intros w0. rewrite run_vqe_world, Hv. reflexivity.
  - split; [|reflexivity]. intros w0. rewrite exact_energy_world.
    simpl in Hx. rewrite Hx. reflexivity.
Qed.

(** The first failing index of a sequence of outcomes, and its exception,
    are unique. *)
Lemma first_failure_unique (f : nat -> result Row) (k k' : nat) (e e' : exn) :
  (forall j, j < k -> exists r, f j = Ok r) -> f k = Err e ->
  (forall j, j < k' -> exists r, f j = Ok r) -> f k' = Err e' ->
  e = e'.
Proof.
  intros Hp Hk Hp' Hk'.
  destruct (Nat.lt_trichotomy k k') as [Hlt|[Heq|Hgt]].
  - destruct (Hp' k Hlt) as [r Hr]. congruence.
  - subst. congruence.
  - destruct (Hp k' Hgt) as [r Hr]. congruence.
Qed.

(** C1: a successful scan of [n] points returns a dictionary with exactly
    the keys [distances], [vqe_energies], [exact_energies], [errors],
    [nuclear_repulsions], in that order, each a list of length [n]; the
    [distances] list is the input itself and entry [k] of the other four is
    the row computed from the [k]-th input point at index [k]. *)
Theorem scan_pes_table_shape (builder : R -> result (QubitOp * Problem))
    (ds : list R) (name : string) (reps maxiter : nat) (seed : Z)
    (w : World) (table : Table) (w' : World) :
  scan_pes builder ds name reps maxiter seed w = (Ok table, w') ->
  map fst table = ["distances"; "vqe_energies"; "exact_energies"; "errors";
                   "nuclear_repulsions"] /\
  Forall (fun kv => length (snd kv) = length ds) table /\
  exists rows, length rows = length ds /\
    table = [("distances", ds);
             ("vqe_energies", map row_vqe rows);
             ("exact_energies", map row_exact rows);
             ("errors", map row_error rows);
             ("nuclear_repulsions", map row_nuc rows)] /\
    forall k, k < length ds ->
      point_outcome builder name reps maxiter seed k (nth k ds 0%R)
      = Ok (nth k rows row0).
Proof.
  intros H. destruct (scan_pes_rows builder ds name reps maxiter seed w table w' H)
    as (rows & Hlen & Ht & Hk).
  split; [subst table; reflexivity|]. split.
  - subst table. repeat constructor; simpl; rewrite ?length_map; auto.
  - exists rows. auto.
Qed.

(** C3: in a successful scan, at every point [k] the VQE total energy is the
    VQE eigenvalue plus the nuclear repulsion, the exact total energy is the
    exact eigenvalue plus the nuclear repulsion, the error is the absolute
    difference of the two totals, and hence non-negative. *)
Theorem scan_pes_energies (builder : R -> result (QubitOp * Problem))
    (ds : list R) (name : string) (reps maxiter : nat) (seed : Z)
    (w : World) (table : Table) (w' : World) :
  scan_pes builder ds name reps maxiter seed w = (Ok table, w') ->
  exists vs xs es ns,
    lookup "vqe_energies" table = Some vs /\
    lookup "exact_energies" table = Some xs /\
    lookup "errors" table = Some es /\
    lookup "nuclear_repulsions" table = Some ns /\
    forall k, k < length ds ->
      (exists op pb vr ex,
         builder (nth k ds 0%R) = Ok (op, pb) /\
         (forall w0, run_vqe op name reps maxiter (seed + Z.of_nat k)%Z w0
                     = (Ok vr, w0)) /\
         (forall w0, exact_energy op w0 = (Ok ex, w0)) /\
         nth k ns 0%R = nuclear_repulsion_energy pb /\
         nth k vs 0%R = (energy vr + nth k ns 0%R)%R /\
         nth k xs 0%R = (ex + nth k ns 0%R)%R) /\
      nth k es 0%R = Rabs (nth k vs 0%R - nth k xs 0%R) /\
      (0 <= nth k es 0%R)%R.
Proof.
  intros H. destruct (scan_pes_rows builder ds name reps maxiter seed w table w' H)
    as (rows & Hlen & -> & Hk).
  exists (map row_vqe rows), (map row_exact rows), (map row_error rows),
    (map row_nuc rows).
  do 4 (split; [reflexivity|]).
  intros k Hkl.
  rewrite !nth_map_row by reflexivity.
  destruct (point_outcome_ok builder name reps maxiter seed k (nth k ds 0%R)
              (nth k rows row0) (Hk k Hkl)) as (op & pb & vr & ex & Hb & Hv & Hx & Hr).
  rewrite Hr. simpl.
  split; [exists op, pb, vr, ex; repeat split; auto|].
  split; [reflexivity | apply Rabs_pos].
Qed.

(** C4: in a successful scan with base seed [seed], the VQE energy at the
    point of index [k] comes from the runner called with seed [seed + k],
    and the [distances] column is the input list in its own order whatever
    the seed. *)
Theorem scan_pes_point_seed (builder : R -> result (QubitOp * Problem))
    (ds : list R) (name : string) (reps maxiter : nat) (seed : Z)
    (w : World) (table : Table) (w' : World) :
  scan_pes builder ds name reps maxiter seed w = (Ok table, w') ->
  lookup "distances" table = Some ds /\
  exists vs, lookup "vqe_energies" table = Some vs /\
    forall k, k < length ds ->
      exists op pb vr,
        builder (nth k ds 0%R) = Ok (op, pb) /\
        (forall w0, run_vqe op name reps maxiter (seed + Z.of_nat k)%Z w0
                    = (Ok vr, w0)) /\
        nth k vs 0%R = (energy vr + nuclear_repulsion_energy pb)%R.
Proof.
  intros H. destruct (scan_pes_rows builder ds name reps maxiter seed w table w' H)
    as (rows & Hlen & -> & Hk).
  split; [reflexivity|]. exists (map row_vqe rows). split; [reflexivity|].
  intros k Hkl. rewrite nth_map_row by reflexivity.
  destruct (point_outcome_ok builder name reps maxiter seed k (nth k ds 0%R)
              (nth k rows row0) (Hk k Hkl)) as (op & pb & vr & ex & Hb & Hv & Hx & Hr).
  exists op, pb, vr. rewrite Hr. auto.
Qed.

(** C7: the scan raises exactly when some point's computation raises: it
    then raises the exception of the first failing point, unchanged, and
    returns no table at all. *)
Theorem scan_pes_fail_fast (builder : R -> result (QubitOp * Problem))
    (ds : list R) (name : string) (reps maxiter : nat) (seed : Z)
    (w : World) (e : exn) :
  fst (scan_pes builder ds name reps maxiter seed w) = Err e <->
  exists k, k < length ds /\
    (forall j, j < k -> exists r,
       point_outcome builder name reps maxiter seed j (nth j ds 0%R) = Ok r) /\
    point_outcome builder name reps maxiter seed k (nth k ds 0%R) = Err e.
Proof.
  unfold PES.scan_pes, Py.bind.
  pose proof (scan_loop_spec builder name reps maxiter seed (length ds) ds 0
                empty_lists w) as Hs.
  destruct (scan_loop builder name reps maxiter seed (length ds) 0 ds
              empty_lists w) as [[t|e'] w1]; simpl.
  - split; [discriminate|].
    intros (k & Hk & _ & Hf). destruct Hs as (rows & _ & _ & Hok).
    pose proof (Hok k Hk) as Hk2. simpl in Hk2. congruence.
  - destruct Hs as (k' & Hk' & Hp' & Hf'). split.
    + intros He. injection He as <-. exists k'. auto.
    + intros (k & Hk & Hp & Hf). enough (e' = e) by (subst; reflexivity).
      apply (first_failure_unique
               (fun j => point_outcome builder name reps maxiter seed j (nth j ds 0%R))
               k' k e' e); assumption.
Qed.

(** C10: scanning the empty list returns five empty columns and prints
    nothing, whatever the builder, the runner's and the solver's libraries
    do (in particular when every one of them raises). *)
Theorem scan_pes_empty (builder : R -> result (QubitOp * Problem))
    (name : string) (reps maxiter : nat) (seed : Z) (w : World) :
  scan_pes builder [] name reps maxiter seed w =
  (Ok [("distances", []); ("vqe_energies", []); ("exact_energies", []);
       ("errors", []); ("nuclear_repulsions", [])], w).
Proof. reflexivity. Qed.

(** C2: running the VQE runner twice on the same operator and configuration
    gives the same result (energy, optimal parameters, energy history) as
    running it once, and the result does not depend on the process state
    the run starts in. *)
Theorem run_vqe_reproducible (h : QubitOp) (name : string) (reps maxiter : nat)
    (seed : Z) (w : World) :
  (r1 <- run_vqe h name reps maxiter seed ;;
   r2 <- run_vqe h name reps maxiter seed ;;
   Py.ret (r1, r2)) w
  = (r1 <- run_vqe h name reps maxiter seed ;; Py.ret (r1, r1)) w /\
  forall w1 w2, fst (run_vqe h name reps maxiter seed w1)
                = fst (run_vqe h name reps maxiter seed w2).
Proof.
  split.
  - unfold Py.bind. rewrite (run_vqe_world _ _ _ _ _ w).
    destruct (fst (run_vqe h name reps maxiter seed [])) as [r|e] eqn:E;
      [|reflexivity].
    rewrite (run_vqe_world _ _ _ _ _ w), E. reflexivity.
  - intros w1 w2. rewrite (run_vqe_world _ _ _ _ _ w1), (run_vqe_world _ _ _ _ _ w2).
    reflexivity.
Qed.

(** For a supported name and a non-negative seed, [run_vqe] hands the VQE
    computation the ansatz of that name and the initial point drawn from
    [default_rng(seed)]. *)
Lemma run_vqe_calls (h : QubitOp) (name : string) (reps maxiter : nat)
    (seed : Z) (w : World) (a : Ansatz) :
  (0 <= seed)%Z ->
  (name = "RealAmplitudes" /\ a = mkAnsatz RealAmplitudes (num_qubits h) reps "linear") \/
  (name = "EfficientSU2" /\ a = mkAnsatz EfficientSU2 (num_qubits h) reps "circular") ->
  run_vqe h name reps maxiter seed w =
  (vqe_return name a
     (compute_minimum_eigenvalue
        (mkVQE a (mkCOBYLA maxiter)
           (fst (uniform (default_rng seed) (- PI) PI (num_parameters a)))) h), w).
Proof.
  intros Hs Hn. assert (E : (seed <? 0)%Z = false) by (apply Z.ltb_ge; exact Hs).
  destruct Hn as [[-> ->]|[-> ->]];
    unfold PES.run_vqe, PES.np_default_rng, PES.vqe_return, Py.bind, Py.ret,
      Py.lift; simpl; rewrite E;
    destruct (compute_minimum_eigenvalue _ h) as [[? ?]|?]; reflexivity.
Qed.

(** For a supported name and a negative seed, [run_vqe] raises numpy's
    [ValueError] before any VQE computation. *)
Lemma run_vqe_negative_seed (h : QubitOp) (name : string) (reps maxiter : nat)
    (seed : Z) (w : World) :
  (seed < 0)%Z -> name = "RealAmplitudes" \/ name = "EfficientSU2" ->
  run_vqe h name reps maxiter seed w =
  (Err (ValueError "expected non-negative integer"), w).
Proof.
  intros Hs Hn. assert (E : (seed <? 0)%Z = true) by (apply Z.ltb_lt; exact Hs).
  destruct Hn as [->| ->];
    unfold PES.run_vqe, PES.np_default_rng, Py.bind, Py.ret, Py.raise; simpl;
    rewrite E; reflexivity.
Qed.

(** C5: [run_vqe] accepts exactly the names [RealAmplitudes] and
    [EfficientSU2], each building its own circuit family; for any other name
    it raises [ValueError('Unknown ansatz type: ...')] at once, whatever the
    optimiser and estimator would do, printing nothing.  An accepted name
    goes on to [np.random.default_rng(seed)], which refuses a negative seed
    with its own [ValueError]; from a non-negative seed the VQE computation
    runs on the ansatz of that name. *)
Theorem run_vqe_ansatz_selection (h : QubitOp) (name : string)
    (reps maxiter : nat) (seed : Z) (w : World) :
  (name = "RealAmplitudes" ->
     ((seed < 0)%Z -> run_vqe h name reps maxiter seed w =
        (Err (ValueError "expected non-negative integer"), w)) /\
     ((0 <= seed)%Z -> exists ip, run_vqe h name reps maxiter seed w =
       (vqe_return name (mkAnsatz RealAmplitudes (num_qubits h) reps "linear")
          (compute_minimum_eigenvalue
             (mkVQE (mkAnsatz RealAmplitudes (num_qubits h) reps "linear")
                (mkCOBYLA maxiter) ip) h), w))) /\
  (name = "EfficientSU2" ->
     ((seed < 0)%Z -> run_vqe h name reps maxiter seed w =
        (Err (ValueError "expected non-negative integer"), w)) /\
     ((0 <= seed)%Z -> exists ip, run_vqe h name reps maxiter seed w =
       (vqe_return name (mkAnsatz EfficientSU2 (num_qubits h) reps "circular")
          (compute_minimum_eigenvalue
             (mkVQE (mkAnsatz EfficientSU2 (num_qubits h) reps "circular")
                (mkCOBYLA maxiter) ip) h), w))) /\
  (name <> "RealAmplitudes" -> name <> "EfficientSU2" ->
     run_vqe h name reps maxiter seed w =
     (Err (ValueError ("Unknown ansatz type: " ++ name)), w)).
Proof.
  split; [|split].
  - intros Hn. split.
    + intros Hs. apply run_vqe_negative_seed; auto.
    + intros Hs. eexists. apply run_vqe_calls; [exact Hs|]. left. auto.
  - intros Hn. split.
    + intros Hs. apply run_vqe_negative_seed; auto.
    + intros Hs. eexists. apply run_vqe_calls; [exact Hs|]. right. auto.
  - intros H1 H2. apply String.eqb_neq in H1, H2.
    unfold PES.run_vqe, Py.bind. rewrite H1, H2. reflexivity.
Qed.

(** C6: for a supported name and a non-negative seed, the initial point
    handed to the VQE computation is [rng.uniform(-pi, pi,
    ansatz.num_parameters)] of [default_rng(seed)]: as many values as the
    ansatz has parameters, each [-pi + 2 pi u] for successive unit draws [u]
    of the seeded generator, hence in [[-pi, pi]].  A negative seed is
    refused by [default_rng] with [ValueError], and no initial point is drawn
    and no VQE computation made. *)
Theorem run_vqe_initial_point
    (Hnd : forall g, (0 <= fst (next_double g) < 1)%R)
    (h : QubitOp) (name : string) (reps maxiter : nat) (seed : Z) (w : World) :
  name = "RealAmplitudes" \/ name = "EfficientSU2" ->
  ((seed < 0)%Z ->
     run_vqe h name reps maxiter seed w =
       (Err (ValueError "expected non-negative integer"), w)) /\
  ((0 <= seed)%Z ->
     exists ansatz ip,
       run_vqe h name reps maxiter seed w =
         (vqe_return name ansatz
            (compute_minimum_eigenvalue (mkVQE ansatz (mkCOBYLA maxiter) ip) h), w) /\
       ip = fst (uniform (default_rng seed) (- PI) PI (num_parameters ansatz)) /\
       length ip = num_parameters ansatz /\
       Forall (fun x => - PI <= x <= PI)%R ip).
Proof.
  intros Hn.
  assert (Hpi : (- PI <= PI)%R) by (pose proof PI_RGT_0; lra).
  split; [intros Hs; apply run_vqe_negative_seed; assumption|].
  intros Hs.
  destruct Hn as [Hn|Hn];
    [ exists (mkAnsatz RealAmplitudes (num_qubits h) reps "linear")
    | exists (mkAnsatz EfficientSU2 (num_qubits h) reps "circular") ];
    eexists; (split; [apply run_vqe_calls; auto|]);
    (split; [reflexivity|]); apply (uniform_spec Hnd _ _ Hpi).
Qed.

End Proofs.

Section ExactProofs.

Variable QubitOp LinalgState : Type.
Variable numpy_minimum_eigenvalue :
  QubitOp -> LinalgState -> result R * LinalgState.

Local Abbreviation exact_energy :=
  (ExactSolver.exact_energy QubitOp LinalgState numpy_minimum_eigenvalue).
Local Abbreviation exact_energy_twice :=
  (ExactSolver.exact_energy_twice QubitOp LinalgState numpy_minimum_eigenvalue).

(** C8 (amended): [exact_energy] builds a fresh solver per call and keeps no
    state of its own, its one effect being the library's; but the library
    state (ARPACK's start-vector seed) carries over from the first call to
    the second.  When the solver's result is within [tol] of the operator's
    minimum eigenvalue whatever state it starts from, two successive calls on
    the same operator return values within [2 tol] of each other. *)
Theorem exact_energy_within_tolerance (lambda_min : QubitOp -> R) (tol : R)
    (Hacc : forall h st x st', numpy_minimum_eigenvalue h st = (Ok x, st') ->
              (Rabs (x - lambda_min h) <= tol)%R)
    (h : QubitOp) (st : LinalgState) :
  (forall st0, exact_energy h st0 = numpy_minimum_eigenvalue h st0) /\
  (forall x1 x2 st', exact_energy_twice h st = (Ok (x1, x2), st') ->
     exists st1,
       exact_energy h st = (Ok x1, st1) /\ exact_energy h st1 = (Ok x2, st') /\
       (Rabs (x1 - x2) <= 2 * tol)%R).
Proof.
  split; [reflexivity|].
  intros x1 x2 st' H.
  unfold ExactSolver.exact_energy_twice, ExactSolver.bind, ExactSolver.ret,
    ExactSolver.exact_energy in *.
  destruct (numpy_minimum_eigenvalue h st) as [[y1|e1] st1] eqn:E1; [|discriminate].
  destruct (numpy_minimum_eigenvalue h st1) as [[y2|e2] st2] eqn:E2; [|discriminate].
  injection H as <- <- <-.
  exists st1. split; [reflexivity|]. split; [exact E2|].
  pose proof (Hacc _ _ _ _ E1) as A1. pose proof (Hacc _ _ _ _ E2) as A2.
  replace (y1 - y2)%R with ((y1 - lambda_min h) + (lambda_min h - y2))%R by ring.
  eapply Rle_trans; [apply Rabs_triang|].
  rewrite (Rabs_minus_sym (lambda_min h) y2). lra.
Qed.

End ExactProofs.

(** C9: [build_beh2(angle)] writes Be at the origin and the two H atoms at
    [(0, +/- d sin(angle/2), d cos(angle/2))], the half angle converted to
    radians before the projection, [d = 1.326], each coordinate rendered by
    [format(_, '.6f')]; both H atoms are at distance [d] from Be and the
    H-Be-H angle is [angle]. *)
Theorem build_beh2_geometry (format_fixed : nat -> R -> string) (angle : R) :
  let y := (beh2_d * sin (radians (angle / 2)))%R in
  let z := (beh2_d * cos (radians (angle / 2)))%R in
  beh2_atom_string format_fixed angle =
    "Be 0.0 0.0 0.0; H 0.0 " ++ format_fixed 6 y ++ " " ++ format_fixed 6 z
    ++ "; H 0.0 " ++ format_fixed 6 (- y)%R ++ " " ++ format_fixed 6 z /\
  beh2_d = (1326 / 1000)%R /\
  (y * y + z * z = beh2_d * beh2_d)%R /\
  (y * (- y) + z * z = beh2_d * beh2_d * cos (radians angle))%R.
Proof.
  intros y z. split; [reflexivity|]. split; [reflexivity|].
  pose proof (sin2_cos2 (radians (angle / 2))) as Hsc. unfold Rsqr in Hsc.
  split.
  - unfold y, z.
    transitivity (beh2_d * beh2_d *
                  (sin (radians (angle / 2)) * sin (radians (angle / 2)) +
                   cos (radians (angle / 2)) * cos (radians (angle / 2))))%R;
      [ring | rewrite Hsc; ring].
  - unfold y, z.
    replace (radians angle) with (2 * radians (angle / 2))%R
      by (unfold radians; field).
    rewrite cos_2a. ring.
Qed.

(** ** Witnesses on the concrete instance *)

Lemma scan_pes_table_shape_witness :
  exists table w',
    Demo.scan_pes Demo.builder [1; 2]%R "RealAmplitudes" 3 200 42 [] = (Ok table, w') /\
    map fst table = ["distances"; "vqe_energies"; "exact_energies"; "errors";
                     "nuclear_repulsions"] /\
    Forall (fun kv => length (snd kv) = length [1; 2]%R) table /\
    exists rows, length rows = length [1; 2]%R /\
      table = [("distances", [1; 2]%R);
               ("vqe_energies", map row_vqe rows);
               ("exact_energies", map row_exact rows);
               ("errors", map row_error rows);
               ("nuclear_repulsions", map row_nuc rows)] /\
      forall k, k < length [1; 2]%R ->
        Demo.point_outcome Demo.builder "RealAmplitudes" 3 200 42 k
          (nth k [1; 2]%R 0%R) = Ok (nth k rows row0).
Proof.
  do 2 eexists. split; [reflexivity|].
  eapply (scan_pes_table_shape unit unit Demo.num_qubits
            Demo.nuclear_repulsion_energy Demo.num_parameters nat
            Demo.default_rng Demo.next_double Demo.compute_minimum_eigenvalue
            Demo.numpy_minimum_eigenvalue Demo.format_fixed Demo.builder
            [1; 2]%R "RealAmplitudes" 3 200 42 []).
  reflexivity.
Defined.

Lemma scan_pes_energies_witness :
  exists table w',
    Demo.scan_pes Demo.builder [1; 2]%R "EfficientSU2" 1 50 7 [] = (Ok table, w') /\
    exists vs xs es ns,
      lookup "vqe_energies" table = Some vs /\
      lookup "exact_energies" table = Some xs /\
      lookup "errors" table = Some es /\
      lookup "nuclear_repulsions" table = Some ns /\
      forall k, k < length [1; 2]%R ->
        (exists op pb vr ex,
           Demo.builder (nth k [1; 2]%R 0%R) = Ok (op, pb) /\
           (forall w0, Demo.run_vqe op "EfficientSU2" 1 50 (7 + Z.of_nat k)%Z w0
                       = (Ok vr, w0)) /\
           (forall w0, Demo.exact_energy op w0 = (Ok ex, w0)) /\
           nth k ns 0%R = Demo.nuclear_repulsion_energy pb /\
           nth k vs 0%R = (energy vr + nth k ns 0%R)%R /\
           nth k xs 0%R = (ex + nth k ns 0%R)%R) /\
        nth k es 0%R = Rabs (nth k vs 0%R - nth k xs 0%R) /\
        (0 <= nth k es 0%R)%R.
Proof.
  do 2 eexists. split; [reflexivity|].
  eapply (scan_pes_energies unit unit Demo.num_qubits
            Demo.nuclear_repulsion_energy Demo.num_parameters nat
            Demo.default_rng Demo.next_double Demo.compute_minimum_eigenvalue
            Demo.numpy_minimum_eigenvalue Demo.format_fixed Demo.builder
            [1; 2]%R "EfficientSU2" 1 50 7 []).
  reflexivity.
Defined.

Lemma scan_pes_point_seed_witness :
  exists table w',
    Demo.scan_pes Demo.builder [1; 2; 3]%R "RealAmplitudes" 2 100 10 [] = (Ok table, w') /\
    lookup "distances" table = Some [1; 2; 3]%R /\
    exists vs, lookup "vqe_energies" table = Some vs /\
      forall k, k < length [1; 2; 3]%R ->
        exists op pb vr,
          Demo.builder (nth k [1; 2; 3]%R 0%R) = Ok (op, pb) /\
          (forall w0, Demo.run_vqe op "RealAmplitudes" 2 100 (10 + Z.of_nat k)%Z w0
                      = (Ok vr, w0)) /\
          nth k vs 0%R = (energy vr + Demo.nuclear_repulsion_energy pb)%R.
Proof.
  do 2 eexists. split; [reflexivity|].
  eapply (scan_pes_point_seed unit unit Demo.num_qubits
            Demo.nuclear_repulsion_energy Demo.num_parameters nat
            Demo.default_rng Demo.next_double Demo.compute_minimum_eigenvalue
            Demo.numpy_minimum_eigenvalue Demo.format_fixed Demo.builder
            [1; 2; 3]%R "RealAmplitudes" 2 100 10 []).
  reflexivity.
Defined.

Lemma run_vqe_initial_point_witness :
  (forall g, 0 <= fst (Demo.next_double g) < 1)%R /\
  ("RealAmplitudes" = "RealAmplitudes" \/ "RealAmplitudes" = "EfficientSU2") /\
  ((-1 < 0)%Z ->
     Demo.run_vqe tt "RealAmplitudes" 3 200 (-1) [] =
       (Err (ValueError "expected non-negative integer"), [])) /\
  ((0 <= 42)%Z ->
     exists ansatz ip,
       Demo.run_vqe tt "RealAmplitudes" 3 200 42 [] =
         (PES.vqe_return Demo.num_parameters "RealAmplitudes" ansatz
            (Demo.compute_minimum_eigenvalue (mkVQE ansatz (mkCOBYLA 200) ip) tt), []) /\
       ip = fst (PES.uniform nat Demo.next_double (Demo.default_rng 42) (- PI) PI
                   (Demo.num_parameters ansatz)) /\
       length ip = Demo.num_parameters ansatz /\
       Forall (fun x => - PI <= x <= PI)%R ip).
Proof.
  assert (Hnd : forall g, (0 <= fst (Demo.next_double g) < 1)%R)
    by (intros g; simpl; lra).
  split; [exact Hnd|]. split; [left; reflexivity|]. split.
  - exact (proj1 (run_vqe_initial_point unit Demo.num_qubits Demo.num_parameters nat
             Demo.default_rng Demo.next_double Demo.compute_minimum_eigenvalue Hnd
             tt "RealAmplitudes" 3 200 (-1) [] (or_introl eq_refl))).
  - exact (proj2 (run_vqe_initial_point unit Demo.num_qubits Demo.num_parameters nat
             Demo.default_rng Demo.next_double Demo.compute_minimum_eigenvalue Hnd
             tt "RealAmplitudes" 3 200 42 [] (or_introl eq_refl))).
Defined.

(** The concrete instance evaluated: an unknown ansatz name, a builder whose
    driver raises, and the energies of a successful two-point scan. *)
Example run_vqe_bogus_demo :
  Demo.run_vqe tt "bogus" 3 200 42 [] =
  (Err (ValueError "Unknown ansatz type: bogus"), []).
Proof. reflexivity. Qed.

Example scan_pes_failing_builder_demo :
  fst (Demo.scan_pes Demo.failing_builder [1; 2]%R "RealAmplitudes" 3 200 42 [])
  = Err (LibraryError "RuntimeError" "scf").
Proof. reflexivity. Qed.

Example run_vqe_history_demo :
  fst (Demo.run_vqe tt "RealAmplitudes" 3 200 42 []) =
  Ok (mkVqeOutput (-1)%R [] [(-1)%R] 4 "RealAmplitudes").
Proof. reflexivity. Qed.

(** ** Further properties of the runner, the scan and the builders *)

(** The VQE callback appends each value it receives. *)
Lemma fold_callback (calls : list CallbackCall) :
  forall h, fold_left PES.callback calls h = app h (map cb_value calls).
Proof.
  induction calls as [|c calls IH]; intros h; simpl.
  - rewrite app_nil_r. reflexivity.
  - rewrite IH. unfold PES.callback. rewrite <- app_assoc. reflexivity.
Qed.

Lemma nth_SS {A} (m : nat) (a b : A) (l : list A) (d : A) :
  nth (S (S m)) (a :: b :: l) d = nth m l d.
Proof. reflexivity. Qed.

Section ExtraProofs.

Variable QubitOp Problem : Type.
Variable num_qubits : QubitOp -> nat.
Variable nuclear_repulsion_energy : Problem -> R.
Variable num_parameters : Ansatz -> nat.
Variable Gen : Type.
Variable default_rng : Z -> Gen.
Variable next_double : Gen -> R * Gen.
Variable compute_minimum_eigenvalue :
  VQE -> QubitOp -> result (VQEResult * list CallbackCall).
Variable numpy_minimum_eigenvalue : QubitOp -> result R.
Variable format_fixed : nat -> R -> string.

Local Abbreviation run_vqe :=
  (PES.run_vqe QubitOp num_qubits num_parameters Gen default_rng next_double
     compute_minimum_eigenvalue).
Local Abbreviation scan_loop :=
  (PES.scan_loop QubitOp Problem num_qubits nuclear_repulsion_energy num_parameters
     Gen default_rng next_double compute_minimum_eigenvalue
     numpy_minimum_eigenvalue format_fixed).
Local Abbreviation scan_pes :=
  (PES.scan_pes QubitOp Problem num_qubits nuclear_repulsion_energy num_parameters
     Gen default_rng next_double compute_minimum_eigenvalue
     numpy_minimum_eigenvalue format_fixed).
Local Abbreviation point_outcome :=
  (PES.point_outcome QubitOp Problem num_qubits nuclear_repulsion_energy
     num_parameters Gen default_rng next_double compute_minimum_eigenvalue
     numpy_minimum_eigenvalue).

(** X1: a successful [run_vqe] prints nothing and returns the eigenvalue's
    real part and optimal parameters of the VQE run on an ansatz over the
    Hamiltonian's qubits with the given [reps]; [energy_history] is the list
    of values the callback received, in order, one per invocation;
    [num_params] is the ansatz's parameter count and [ansatz_type] the name
    passed in. *)
Theorem run_vqe_output (h : QubitOp) (name : string) (reps maxiter : nat)
    (seed : Z) (w : World) (vo : VqeOutput) (w' : World) :
  run_vqe h name reps maxiter seed w = (Ok vo, w') ->
  w' = w /\ (0 <= seed)%Z /\
  exists a ip res calls,
    compute_minimum_eigenvalue (mkVQE a (mkCOBYLA maxiter) ip) h = Ok (res, calls) /\
    ansatz_num_qubits a = num_qubits h /\ ansatz_reps a = reps /\
    energy vo = eigenvalue_real res /\
    optimal_params vo = optimal_parameters res /\
    energy_history vo = map cb_value calls /\
    length (energy_history vo) = length calls /\
    num_params vo = num_parameters a /\
    ansatz_type vo = name.
Proof.
  unfold PES.run_vqe, PES.np_default_rng, Py.bind, Py.ret, Py.raise, Py.lift.
  destruct (String.eqb name "RealAmplitudes"); [|destruct (String.eqb name "EfficientSU2")];
    try discriminate; destruct (seed <? 0)%Z eqn:Es; try discriminate;
    apply Z.ltb_ge in Es;
    match goal with |- context [compute_minimum_eigenvalue ?v h] =>
      destruct (compute_minimum_eigenvalue v h) as [[res calls]|?] eqn:Hc end;
    try discriminate;
    intros H; injection H as <- <-; (split; [reflexivity|]); (split; [exact Es|]);
    do 4 eexists; (split; [exact Hc|]); simpl;
    rewrite fold_callback; simpl; rewrite ?length_map; repeat split.
Qed.

(** What the loop writes to stdout: two pieces per completed point, the
    progress header [  [k/n] d = ... ] and the result line with the point's
    energies; a failing point leaves its header printed and nothing after
    it. *)
Lemma scan_loop_stdout (builder : R -> result (QubitOp * Problem))
    (name : string) (reps maxiter : nat) (seed : Z) (n : nat) :
  forall ds i acc w,
  exists out,
    snd (scan_loop builder name reps maxiter seed n i ds acc w) = app w out /\
    (forall k, 2 * k < length out -> k < length ds /\
       nth (2 * k) out "" =
       "  [" ++ nat_to_string (i + k + 1) ++ "/" ++ nat_to_string n
       ++ "] d = " ++ format_fixed 3 (nth k ds 0%R) ++ " ..." ++ " ") /\
    (forall k, 2 * k + 1 < length out -> exists r,
       point_outcome builder name reps maxiter seed (i + k) (nth k ds 0%R) = Ok r /\
       nth (2 * k + 1) out "" =
       "VQE=" ++ format_fixed 6 (row_vqe r) ++ ", Exact="
       ++ format_fixed 6 (row_exact r) ++ ", Error="
       ++ format_fixed 2 (row_error r * 1000)%R ++ " mHa" ++ "
") /\
    match fst (scan_loop builder name reps maxiter seed n i ds acc w) with
    | Ok _ => length out = 2 * length ds
    | Err e => exists k, length out = 2 * k + 1 /\ k < length ds /\
        point_outcome builder name reps maxiter seed (i + k) (nth k ds 0%R) = Err e
    end.
Proof.
  induction ds as [|d ds IH]; intros i acc w.
  - exists []. simpl. rewrite app_nil_r.
    split; [reflexivity|]. split; [|split; [|reflexivity]];
      intros k Hk; simpl in Hk; lia.
  - cbn [PES.scan_loop Py.bind Py.print Py.lift].
    assert (Hpo : forall k, point_outcome builder name reps maxiter seed k d =
      match builder d with
      | Err e => Err e
      | Ok (op, pb) =>
          match fst (run_vqe op name reps maxiter (seed + Z.of_nat k)%Z []) with
          | Err e => Err e
          | Ok vr =>
              match numpy_minimum_eigenvalue op with
              | Err e => Err e
              | Ok ex =>
                  Ok (mkRow (energy vr + nuclear_repulsion_energy pb)%R
                        (ex + nuclear_repulsion_energy pb)%R
                        (Rabs (energy vr + nuclear_repulsion_energy pb -
                               (ex + nuclear_repulsion_energy pb)))%R
                        (nuclear_repulsion_energy pb))
              end
          end
      end) by reflexivity.
    set (hdr := "  [" ++ nat_to_string (i + 1) ++ "/" ++ nat_to_string n
                ++ "] d = " ++ format_fixed 3 d ++ " ..." ++ " ").
    assert (Hhdr : forall k, 2 * k < 1 -> k < length (d :: ds) /\
       nth (2 * k) [hdr] "" =
       "  [" ++ nat_to_string (i + k + 1) ++ "/" ++ nat_to_string n
       ++ "] d = " ++ format_fixed 3 (nth k (d :: ds) 0%R) ++ " ..." ++ " ").
    { intros k Hk. assert (k = 0) as -> by lia. rewrite Nat.add_0_r.
      split; [simpl; lia | reflexivity]. }
    assert (Hfail : forall e, point_outcome builder name reps maxiter seed i d = Err e ->
      exists out,
        app w [hdr] = app w out /\
        (forall k, 2 * k < length out -> k < length (d :: ds) /\
           nth (2 * k) out "" =
           "  [" ++ nat_to_string (i + k + 1) ++ "/" ++ nat_to_string n
           ++ "] d = " ++ format_fixed 3 (nth k (d :: ds) 0%R) ++ " ..." ++ " ") /\
        (forall k, 2 * k + 1 < length out -> exists r,
           point_outcome builder name reps maxiter seed (i + k)
             (nth k (d :: ds) 0%R) = Ok r /\
           nth (2 * k + 1) out "" =
           "VQE=" ++ format_fixed 6 (row_vqe r) ++ ", Exact="
           ++ format_fixed 6 (row_exact r) ++ ", Error="
           ++ format_fixed 2 (row_error r * 1000)%R ++ " mHa" ++ "
") /\
        exists k, length out = 2 * k + 1 /\ k < length (d :: ds) /\
          point_outcome builder name reps maxiter seed (i + k)
            (nth k (d :: ds) 0%R) = Err e).
    { intros e He. exists [hdr]. split; [reflexivity|]. split; [exact Hhdr|].
      split; [intros k Hk; simpl in Hk; lia|].
      exists 0. rewrite Nat.add_0_r. repeat split; [simpl; lia|exact He]. }
    destruct (builder d) as [[op pb]|e] eqn:Hb.
    2:{ apply Hfail. rewrite Hpo. reflexivity. }
    unfold Py.bind. rewrite run_vqe_world.
    destruct (fst (run_vqe op name reps maxiter (seed + Z.of_nat i)%Z [])) as [vr|e] eqn:Hv.
    2:{ apply Hfail. rewrite Hpo; rewrite ?Hv. reflexivity. }
    cbv beta iota. rewrite exact_energy_world.
    destruct (numpy_minimum_eigenvalue op) as [ex|e] eqn:Hx.
    2:{ apply Hfail. rewrite Hpo; rewrite ?Hv, ?Hx. reflexivity. }
    cbv beta iota.
    set (r := mkRow (energy vr + nuclear_repulsion_energy pb)%R
                (ex + nuclear_repulsion_energy pb)%R
                (Rabs (energy vr + nuclear_repulsion_energy pb -
                       (ex + nuclear_repulsion_energy pb)))%R
                (nuclear_repulsion_energy pb)).
    assert (Hr : point_outcome builder name reps maxiter seed i d = Ok r)
      by (rewrite Hpo; rewrite ?Hv, ?Hx; reflexivity).
    unfold Py.print; cbv beta iota.
    lazymatch goal with
    | |- exists out, snd (scan_loop _ _ _ _ _ _ _ _ ?acc' ?w') = _ /\ _ =>
        destruct (IH (S i) acc' w') as (out & Hw & Hh & Hl & Hres);
        set (line := nth 1 (app w' []) "")
    end.
    clear line.
    match goal with
    | |- exists out, snd (scan_loop _ _ _ _ _ _ _ _ _ (app (app w [hdr]) [?l])) = _ /\ _ =>
        exists (hdr :: l :: out)
    end.
    split; [rewrite Hw, <- !app_assoc; reflexivity|].
    split; [|split].
    + intros [|k] Hk.
      * rewrite Nat.add_0_r. split; [simpl; lia | reflexivity].
      * replace (2 * S k) with (S (S (2 * k))) by lia. rewrite nth_SS.
        simpl length in Hk. destruct (Hh k ltac:(lia)) as [Hk' ->].
        split; [simpl; lia|]. replace (i + S k + 1) with (S i + k + 1) by lia.
        reflexivity.
    + intros [|k] Hk.
      * exists r. rewrite Nat.add_0_r. split; [exact Hr | reflexivity].
      * replace (2 * S k + 1) with (S (S (2 * k + 1))) by lia. rewrite nth_SS.
        simpl length in Hk. destruct (Hl k ltac:(lia)) as (r' & Hr' & ->).
        exists r'. split; [|reflexivity].
        replace (i + S k) with (S i + k) by lia. exact Hr'.
    + destruct (fst (scan_loop _ _ _ _ _ _ _ _ _ _)) as [t|e].
      * simpl. lia.
      * destruct Hres as (k & Hk1 & Hk2 & Hk3). exists (S k).
        split; [simpl; lia|]. split; [simpl; lia|].
        replace (i + S k) with (S i + k) by lia. exact Hk3.
Qed.

(** X2: what [scan_pes] over [n] points writes to stdout.  A successful scan
    writes exactly [2 n] pieces: for each point [k] the progress header
    [  [k+1/n] d = <d:.3f> ... ] followed by the result line with that
    point's entries of [vqe_energies], [exact_energies] and [errors] (in
    mHa).  A scan that raises at point [k] leaves printed the [2 k] pieces
    of the earlier points, each point's header and its result line from that
    point's row, then the header of point [k], and nothing else. *)
Theorem scan_pes_stdout (builder : R -> result (QubitOp * Problem))
    (ds : list R) (name : string) (reps maxiter : nat) (seed : Z) (w : World) :
  match scan_pes builder ds name reps maxiter seed w with
  | (Ok table, w') =>
      exists out vs xs es,
        w' = app w out /\ length out = 2 * length ds /\
        lookup "vqe_energies" table = Some vs /\
        lookup "exact_energies" table = Some xs /\
        lookup "errors" table = Some es /\
        forall k, k < length ds ->
          nth (2 * k) out "" =
            "  [" ++ nat_to_string (k + 1) ++ "/" ++ nat_to_string (length ds)
            ++ "] d = " ++ format_fixed 3 (nth k ds 0%R) ++ " ..." ++ " " /\
          nth (2 * k + 1) out "" =
            "VQE=" ++ format_fixed 6 (nth k vs 0%R) ++ ", Exact="
            ++ format_fixed 6 (nth k xs 0%R) ++ ", Error="
            ++ format_fixed 2 (nth k es 0%R * 1000)%R ++ " mHa" ++ "
"
  | (Err e, w') =>
      exists out k,
        w' = app w out /\ k < length ds /\ length out = 2 * k + 1 /\
        point_outcome builder name reps maxiter seed k (nth k ds 0%R) = Err e /\
        (forall j, j <= k ->
          nth (2 * j) out "" =
            "  [" ++ nat_to_string (j + 1) ++ "/" ++ nat_to_string (length ds)
            ++ "] d = " ++ format_fixed 3 (nth j ds 0%R) ++ " ..." ++ " ") /\
        (forall j, j < k -> exists r,
          point_outcome builder name reps maxiter seed j (nth j ds 0%R) = Ok r /\
          nth (2 * j + 1) out "" =
            "VQE=" ++ format_fixed 6 (row_vqe r) ++ ", Exact="
            ++ format_fixed 6 (row_exact r) ++ ", Error="
            ++ format_fixed 2 (row_error r * 1000)%R ++ " mHa" ++ "
")
  end.
Proof.
  pose proof (scan_loop_stdout builder name reps maxiter seed (length ds) ds 0
                empty_lists w) as (out & Hw & Hh & Hl & Hres).
  destruct (scan_pes builder ds name reps maxiter seed w) as [[table|e] w'] eqn:Hs.
  - pose proof (scan_pes_rows QubitOp Problem num_qubits nuclear_repulsion_energy
                  num_parameters Gen default_rng next_double
                  compute_minimum_eigenvalue numpy_minimum_eigenvalue format_fixed
                  builder ds name reps maxiter seed w table w' Hs)
      as (rows & Hlen & -> & Hk).
    unfold PES.scan_pes, Py.bind in Hs.
    destruct (scan_loop builder name reps maxiter seed (length ds) 0 ds
                empty_lists w) as [[t|e] w1] eqn:Hloop; [|discriminate Hs].
    unfold Py.ret in Hs. injection Hs; intros; subst. simpl in Hw, Hres.
    exists out, (map row_vqe rows), (map row_exact rows), (map row_error rows).
    split; [assumption|]. split; [lia|].
    split; [reflexivity|]. split; [reflexivity|]. split; [reflexivity|].
    intros k Hkl. split.
    + destruct (Hh k ltac:(lia)) as [_ ->]. reflexivity.
    + destruct (Hl k ltac:(lia)) as (r & Hr & ->).
      simpl Nat.add in Hr. rewrite (Hk k Hkl) in Hr. injection Hr as <-.
      rewrite !nth_map_row by reflexivity. reflexivity.
  - unfold PES.scan_pes, Py.bind in Hs.
    destruct (scan_loop builder name reps maxiter seed (length ds) 0 ds
                empty_lists w) as [[t|e'] w1] eqn:Hloop; [discriminate Hs|].
    injection Hs; intros; subst. simpl in Hw, Hres.
    destruct Hres as (k & Hk1 & Hk2 & Hk3).
    exists out, k. split; [assumption|]. split; [exact Hk2|]. split; [exact Hk1|].
    split; [exact Hk3|]. split.
    + intros j Hj. destruct (Hh j ltac:(lia)) as [_ ->]. reflexivity.
    + intros j Hj. destruct (Hl j ltac:(lia)) as (r & Hr & Hline).
      exists r. split; [exact Hr | exact Hline].
Qed.

(** X3: with an ansatz name other than [RealAmplitudes] and [EfficientSU2],
    a scan over a non-empty list raises [ValueError("Unknown ansatz type:
    ...")] at its first point, right after that point's builder returns; if
    that builder raises, its exception comes first. *)
Theorem scan_pes_unknown_ansatz (builder : R -> result (QubitOp * Problem))
    (name : string) (reps maxiter : nat) (seed : Z) (d : R) (ds : list R)
    (w : World) :
  name <> "RealAmplitudes" -> name <> "EfficientSU2" ->
  fst (scan_pes builder (d :: ds) name reps maxiter seed w) =
  match builder d with
  | Ok _ => Err (ValueError ("Unknown ansatz type: " ++ name))
  | Err e => Err e
  end.
Proof.
  intros H1 H2. apply String.eqb_neq in H1, H2.
  unfold PES.scan_pes. cbn [PES.scan_loop]. unfold Py.bind, Py.print, Py.lift.
  destruct (builder d) as [[op pb]|e]; [|reflexivity].
  unfold PES.run_vqe, Py.bind. rewrite H1, H2. reflexivity.
Qed.

End ExtraProofs.

Section MoleculeProofs.

Variable Problem FermionicOp QubitOp : Type.
Variable pyscf_run : DriverConfig -> result Problem.
Variable second_q_op : Problem -> FermionicOp.
Variable jordan_wigner_map : FermionicOp -> result QubitOp.
Variable active_space_transform : nat -> nat -> Problem -> result Problem.
Variable py_str : R -> string.
Variable format_fixed : nat -> R -> string.
(** [problem.num_spatial_orbitals] and [qubit_op.num_qubits] *)
Variable num_spatial_orbitals : Problem -> nat.
Variable num_qubits : QubitOp -> nat.

Local Abbreviation build_h2 :=
  (Molecules.build_h2 Problem FermionicOp QubitOp pyscf_run second_q_op
     jordan_wigner_map py_str).
Local Abbreviation build_lih :=
  (Molecules.build_lih Problem FermionicOp QubitOp pyscf_run second_q_op
     jordan_wigner_map active_space_transform py_str).
Local Abbreviation build_beh2 :=
  (Molecules.build_beh2 Problem FermionicOp QubitOp pyscf_run second_q_op
     jordan_wigner_map active_space_transform format_fixed).

(** X4: when the active-space transformer keeps the number of spatial
    orbitals it is asked for, and the Jordan-Wigner mapping gives one qubit
    per spin orbital, [build_lih] and [build_beh2] return a problem with 3
    spatial orbitals and a 6-qubit operator, reduced from the STO-3G problem
    of the driver by [ActiveSpaceTransformer(num_electrons=2,
    num_spatial_orbitals=3)]; [build_h2] returns the driver's problem itself,
    unreduced, with two qubits per spatial orbital. *)
Theorem builders_qubit_count
    (Htr : forall ne no p p', active_space_transform ne no p = Ok p' ->
             num_spatial_orbitals p' = no)
    (Hjw : forall p q, jordan_wigner_map (second_q_op p) = Ok q ->
             num_qubits q = 2 * num_spatial_orbitals p) :
  (forall d q p, build_lih d = Ok (q, p) ->
     num_qubits q = 6 /\ num_spatial_orbitals p = 3 /\
     exists p0,
       pyscf_run (Molecules.sto3g_driver ("Li 0.0 0.0 0.0; H 0.0 0.0 " ++ py_str d))
         = Ok p0 /\ active_space_transform 2 3 p0 = Ok p) /\
  (forall angle q p, build_beh2 angle = Ok (q, p) ->
     num_qubits q = 6 /\ num_spatial_orbitals p = 3 /\
     exists p0,
       pyscf_run (Molecules.sto3g_driver (beh2_atom_string format_fixed angle))
         = Ok p0 /\ active_space_transform 2 3 p0 = Ok p) /\
  (forall d q p, build_h2 d = Ok (q, p) ->
     num_qubits q = 2 * num_spatial_orbitals p /\
     pyscf_run (Molecules.sto3g_driver ("H 0.0 0.0 0.0; H 0.0 0.0 " ++ py_str d))
       = Ok p).
Proof.
  split; [|split].
  - intros d q p. unfold Molecules.build_lih, rbind.
    destruct (pyscf_run _) as [p0|e] eqn:H0; [|discriminate].
    destruct (active_space_transform 2 3 p0) as [p1|e] eqn:H1; [|discriminate].
    destruct (jordan_wigner_map (second_q_op p1)) as [q1|e] eqn:H2; [|discriminate].
    intros H. injection H as <- <-.
    apply Htr in H1 as Hn. apply Hjw in H2. split; [lia|].
    split; [exact Hn|]. exists p0. split; [reflexivity | exact H1].
  - intros a q p. unfold Molecules.build_beh2, rbind.
    destruct (pyscf_run _) as [p0|e] eqn:H0; [|discriminate].
    destruct (active_space_transform 2 3 p0) as [p1|e] eqn:H1; [|discriminate].
    destruct (jordan_wigner_map (second_q_op p1)) as [q1|e] eqn:H2; [|discriminate].
    intros H. injection H as <- <-.
    apply Htr in H1 as Hn. apply Hjw in H2. split; [lia|].
    split; [exact Hn|]. exists p0. split; [reflexivity | exact H1].
  - intros d q p. unfold Molecules.build_h2, rbind.
    destruct (pyscf_run _) as [p0|e] eqn:H0; [|discriminate].
    destruct (jordan_wigner_map (second_q_op p0)) as [q1|e] eqn:H2; [|discriminate].
    intros H. injection H as <- <-.
    apply Hjw in H2. split; [exact H2 | reflexivity].
Qed.

End MoleculeProofs.

(** ** Properties of the plotting functions *)

Lemma is_upper_latin1_spec (n : nat) :
  is_upper_latin1 n = true <-> (65 <= n <= 90 \/ (192 <= n <= 222 /\ n <> 215)).
Proof.
  unfold is_upper_latin1.
  rewrite Bool.orb_true_iff, !Bool.andb_true_iff, Bool.negb_true_iff,
    !Nat.leb_le, Nat.eqb_neq.
  tauto.
Qed.

(** Lower-casing twice is lower-casing once. *)
Lemma lower_char_idem (c : ascii) : lower_char (lower_char c) = lower_char c.
Proof.
  unfold lower_char at 2. destruct (is_upper_latin1 (nat_of_ascii c)) eqn:E.
  - pose proof (proj1 (is_upper_latin1_spec _) E) as E1.
    pose proof (nat_ascii_bounded c) as Hb.
    unfold lower_char. rewrite E, nat_ascii_embedding by lia.
    destruct (is_upper_latin1 (nat_of_ascii c + 32)) eqn:E2; [|reflexivity].
    apply is_upper_latin1_spec in E2. lia.
  - unfold lower_char. rewrite E. reflexivity.
Qed.

(** One character of [file_slug]. *)
Lemma file_slug_cons (c : ascii) (s : string) :
  file_slug (String c s) =
  String (if Ascii.eqb (lower_char c) " " then "_" else lower_char c)%char
    (file_slug s).
Proof. reflexivity. Qed.

Lemma slug_char_safe (c : ascii) :
  let c' := (if Ascii.eqb (lower_char c) " " then "_" else lower_char c)%char in
  c' <> " "%char /\ lower_char c' = c'.
Proof.
  simpl. destruct (Ascii.eqb (lower_char c) " ") eqn:E.
  - split; [discriminate | reflexivity].
  - split; [intros H; rewrite H, Ascii.eqb_refl in E; discriminate
           | apply lower_char_idem].
Qed.

(** X6: for a name of code points below 256, the name part
    [molecule_name.lower().replace(" ", "_")] that [plot_pes] and
    [plot_energy_error] put in their file names has one character per
    character of the name, none of them a space and each one that
    [str.lower()] keeps; it is unchanged by lower-casing the name first or by
    being applied twice, so names that differ only in case give the same
    file name. *)
Theorem file_slug_safe (molecule_name : string) :
  String.length (file_slug molecule_name) = String.length molecule_name /\
  (forall c, In c (list_ascii_of_string (file_slug molecule_name)) ->
     c <> " "%char /\ lower_char c = c) /\
  file_slug (py_lower molecule_name) = file_slug molecule_name /\
  file_slug (file_slug molecule_name) = file_slug molecule_name.
Proof.
  induction molecule_name as [|c s IH]; [repeat split; simpl; tauto|].
  destruct IH as (Hlen & Hsafe & Hlow & Hidem).
  pose proof (slug_char_safe c) as [Hsp Hup]. simpl in Hsp, Hup.
  rewrite file_slug_cons. split; [|split; [|split]].
  - simpl. rewrite Hlen. reflexivity.
  - intros c' [<-|Hin]; [split; assumption | apply Hsafe, Hin].
  - change (py_lower (String c s)) with (String (lower_char c) (py_lower s)).
    rewrite file_slug_cons, Hlow, lower_char_idem. reflexivity.
  - rewrite file_slug_cons, Hidem, Hup.
    destruct (Ascii.eqb _ " ") eqn:E;
      [|destruct (Ascii.eqb (lower_char c) " ") eqn:E'; [discriminate|]];
      reflexivity || (apply Ascii.eqb_eq in E; contradiction).
Qed.

Section PlotProofs.

Variable lib : list Call -> Call -> option (string * string).

Variable QubitOp Problem : Type.
Variable num_qubits : QubitOp -> nat.
Variable nuclear_repulsion_energy : Problem -> R.
Variable num_parameters : Ansatz -> nat.
Variable Gen : Type.
Variable default_rng : Z -> Gen.
Variable next_double : Gen -> R * Gen.
Variable compute_minimum_eigenvalue :
  VQE -> QubitOp -> result (VQEResult * list CallbackCall).
Variable numpy_minimum_eigenvalue : QubitOp -> result R.
Variable format_fixed : nat -> R -> string.

Local Abbreviation scan_pes :=
  (PES.scan_pes QubitOp Problem num_qubits nuclear_repulsion_energy num_parameters
     Gen default_rng next_double compute_minimum_eigenvalue
     numpy_minimum_eigenvalue format_fixed).

Local Abbreviation call := (Plotting.call lib).
Local Abbreviation plot_pes := (Plotting.plot_pes lib).
Local Abbreviation plot_energy_error := (Plotting.plot_energy_error lib).
Local Abbreviation plot_multi_molecule_comparison :=
  (Plotting.plot_multi_molecule_comparison lib).
Local Abbreviation plot_ansatz_comparison := (Plotting.plot_ansatz_comparison lib).

Lemma call_ok (Hlib : forall tr c, lib tr c = None) (c : Call) (tr : list Call) :
  call c tr = (inl tt, app tr [c]).
Proof. unfold Plotting.call. rewrite Hlib. reflexivity. Qed.

Lemma bind_call_ok (Hlib : forall tr c, lib tr c = None) {B} (c : Call)
    (k : unit -> PM B) (tr : list Call) :
  Plt.bind (call c) k tr = k tt (app tr [c]).
Proof. unfold Plt.bind. rewrite call_ok by exact Hlib. reflexivity. Qed.

Lemma bind_ret {A B} (a : A) (k : A -> PM B) (tr : list Call) :
  Plt.bind (Plt.ret a) k tr = k a tr.
Proof. reflexivity. Qed.

Lemma bind_raise {A B} (e : plot_exn) (k : A -> PM B) (tr : list Call) :
  Plt.bind (Plt.raise e) k tr = (inr e, tr).
Proof. reflexivity. Qed.

Lemma bind_assoc {A B C} (m : PM A) (f : A -> PM B) (g : B -> PM C)
    (tr : list Call) :
  Plt.bind (Plt.bind m f) g tr = Plt.bind m (fun x => Plt.bind (f x) g) tr.
Proof. unfold Plt.bind. destruct (m tr) as [[a|e] tr']; reflexivity. Qed.

Lemma bind_ok_eq {A B} (m : PM A) (k : A -> PM B) (tr tr' : list Call) (a : A) :
  m tr = (inl a, tr') -> Plt.bind m k tr = k a tr'.
Proof. intros H. unfold Plt.bind. rewrite H. reflexivity. Qed.

(** A [for i, x in enumerate(xs)] loop whose body returns: the loop returns,
    every call it makes is one of the body's at some index, and every
    iteration's calls are made. *)
Lemma for_enumerate_spec {A} (body : nat -> A -> PM unit)
    (Q : nat -> A -> list Call -> Prop) :
  forall l i,
  (forall j x, nth_error l j = Some x -> forall tr, exists o,
     body (i + j) x tr = (inl tt, app tr o) /\ Q (i + j) x o) ->
  forall tr, exists calls,
    Plotting.for_enumerate body i l tr = (inl tt, app tr calls) /\
    (forall c, In c calls -> exists j x o,
       nth_error l j = Some x /\ Q (i + j) x o /\ In c o) /\
    (forall j x, nth_error l j = Some x -> exists o, Q (i + j) x o /\ incl o calls).
Proof.
  induction l as [|x l IH]; intros i Hb tr.
  - exists []. split; [rewrite app_nil_r; reflexivity|].
    split; [intros c []|]. intros [|j] y H; discriminate H.
  - destruct (Hb 0 x eq_refl tr) as (o & Ho & HQ). rewrite Nat.add_0_r in Ho, HQ.
    destruct (IH (S i)) with (tr := app tr o) as (calls & Hc & Hin & Hall).
    { intros j y Hj tr'. replace (S i + j) with (i + S j) by lia.
      apply (Hb (S j) y Hj). }
    exists (app o calls). split.
    + cbn [Plotting.for_enumerate]. rewrite (bind_ok_eq _ _ _ _ _ Ho), Hc.
      rewrite app_assoc. reflexivity.
    + split.
      * intros c Hc'. apply in_app_or in Hc' as [Hc'|Hc'].
        -- exists 0, x, o. rewrite Nat.add_0_r. auto.
        -- destruct (Hin c Hc') as (j & y & o' & Hj & HQ' & Ho').
           exists (S j), y, o'. replace (i + S j) with (S i + j) by lia. auto.
      * intros [|j] y Hj.
        -- injection Hj as <-. exists o. rewrite Nat.add_0_r.
           split; [exact HQ|]. intros c Hc'. apply in_or_app. left. exact Hc'.
        -- destruct (Hall j y Hj) as (o' & HQ' & Hinc). exists o'.
           replace (i + S j) with (S i + j) by lia. split; [exact HQ'|].
           intros c Hc'. apply in_or_app. right. apply Hinc, Hc'.
Qed.

Ltac plt_exec Hlib :=
  repeat first
    [ rewrite (bind_call_ok Hlib)
    | rewrite (call_ok Hlib)
    | rewrite bind_ret
    | rewrite bind_raise
    | rewrite bind_assoc
    | progress unfold Plotting.subplots
    | rewrite String.eqb_refl
    | progress cbn [Plt.getitem Plt.getindex Plt.as_axes
                    Plotting.first_key_of Plotting.dict_getitem lookup
                    dict_lookup String.eqb Ascii.eqb Bool.eqb nth_error map
                    seq Nat.eqb Nat.mul Nat.add fst snd]
    | progress cbv beta iota ].

Ltac disj :=
  first [ reflexivity | assumption | left; disj | right; disj ].

(** X9: [plot_ansatz_comparison] on an empty dictionary creates [save_dir]
    and opens a figure with two axes, then raises [IndexError] at
    [list(results_by_ansatz.keys())[0]]; it saves nothing and never closes
    the figure. *)
Theorem plot_ansatz_comparison_empty (Hlib : forall tr c, lib tr c = None)
    (molecule_name save_dir : string) (tr : list Call) :
  plot_ansatz_comparison [] molecule_name save_dir tr =
  (inr (IndexError "list index out of range"),
   app tr [Mkdir save_dir true; Subplots 1 2 (14, 5)%R]).
Proof.
  unfold Plotting.plot_ansatz_comparison. plt_exec Hlib.
  rewrite <- app_assoc. reflexivity.
Qed.

(** X10: [plot_pes] on a dictionary missing one of the keys it reads
    ([distances], [exact_energies], [vqe_energies], in that order) raises
    [KeyError] for the first missing key after it has created [save_dir] and
    opened a figure; no file is saved and the figure is never closed. *)
Theorem plot_pes_missing_key (Hlib : forall tr c, lib tr c = None)
    (results : Table) (molecule_name save_dir : string) (tr : list Call) :
  lookup "distances" results = None \/ lookup "exact_energies" results = None \/
  lookup "vqe_energies" results = None ->
  exists key calls,
    plot_pes results molecule_name save_dir tr = (inr (KeyError key), app tr calls) /\
    lookup key results = None /\
    In (Mkdir save_dir true) calls /\ In (Subplots 1 1 (10, 6)%R) calls /\
    ~ In Close calls /\ (forall d f kw, ~ In (Savefig d f kw) calls).
Proof.
  intros Hmiss. unfold Plotting.plot_pes. plt_exec Hlib. unfold Plt.getitem.
  destruct (lookup "distances" results) as [ds|] eqn:Hd.
  2:{ plt_exec Hlib. do 2 eexists. split; [rewrite <- !app_assoc; reflexivity|].
      split; [exact Hd|]. simpl. intuition discriminate. }
  destruct (lookup "exact_energies" results) as [xs|] eqn:Hx.
  2:{ plt_exec Hlib. do 2 eexists. split; [rewrite <- !app_assoc; reflexivity|].
      split; [exact Hx|]. simpl. intuition discriminate. }
  destruct (lookup "vqe_energies" results) as [vs|] eqn:Hv.
  2:{ plt_exec Hlib. do 2 eexists. split; [rewrite <- !app_assoc; reflexivity|].
      split; [exact Hv|]. simpl. intuition discriminate. }
  intuition discriminate.
Qed.

(** X12: when [save_dir] cannot be created ([Path.mkdir(exist_ok=True)]
    raises, e.g. because the path is a regular file or its parent is
    missing), each of the four plotting functions raises that exception with
    no further call: no figure is opened and nothing is saved. *)
Theorem plot_mkdir_failure (save_dir molecule_name : string) (tr : list Call)
    (ename emsg : string) (results : Table) (d : list (string * Table)) :
  lib tr (Mkdir save_dir true) = Some (ename, emsg) ->
  let failed := (inr (PlotLibError ename emsg), app tr [Mkdir save_dir true]) in
  plot_pes results molecule_name save_dir tr = failed /\
  plot_energy_error results molecule_name save_dir tr = failed /\
  plot_multi_molecule_comparison d save_dir tr = failed /\
  plot_ansatz_comparison d molecule_name save_dir tr = failed.
Proof.
  intros H failed. split; [|split; [|split]];
    [ unfold Plotting.plot_pes | unfold Plotting.plot_energy_error
    | unfold Plotting.plot_multi_molecule_comparison
    | unfold Plotting.plot_ansatz_comparison ];
    unfold Plt.bind at 1; unfold Plotting.call at 1; rewrite H; reflexivity.
Qed.

(** X5: [plot_pes] on the dictionary of a successful [scan_pes] reads every
    key it needs, draws exactly two curves, the exact and then the VQE one,
    on the single axes, both against the scanned distances and each with one
    value per point, titles
    the plot [<name> Potential Energy Surface], saves
    [<save_dir>/pes_<slug>.png] at 150 dpi and closes the figure. *)
Theorem plot_pes_after_scan (Hlib : forall tr c, lib tr c = None)
    (builder : R -> result (QubitOp * Problem)) (ds : list R) (name : string)
    (reps maxiter : nat) (seed : Z) (w : World) (table : Table) (w' : World)
    (molecule_name save_dir : string) (tr : list Call) :
  scan_pes builder ds name reps maxiter seed w = (Ok table, w') ->
  exists calls xs vs,
    plot_pes table molecule_name save_dir tr = (inl tt, app tr calls) /\
    lookup "exact_energies" table = Some xs /\
    lookup "vqe_energies" table = Some vs /\
    length xs = length ds /\ length vs = length ds /\
    plot_calls calls =
      [Plot 0 ds xs "o-" [("color", AS "#2C3E50"); ("linewidth", AR 2);
                          ("markersize", AR 6); ("label", AS "Exact (FCI)")];
       Plot 0 ds vs "s--" [("color", AS "#FF6B6B"); ("linewidth", AR 2);
                           ("markersize", AR 6); ("alpha", AR (8 / 10));
                           ("label", AS "VQE")]] /\
    In (SetTitle 0 (molecule_name ++ " Potential Energy Surface") []) calls /\
    In (Savefig save_dir ("pes_" ++ file_slug molecule_name ++ ".png")
          [("dpi", AR 150)]) calls /\
    In Close calls.
Proof.
  intros Hs.
  destruct (scan_pes_rows QubitOp Problem num_qubits nuclear_repulsion_energy
              num_parameters Gen default_rng next_double
              compute_minimum_eigenvalue numpy_minimum_eigenvalue format_fixed
              builder ds name reps maxiter seed w table w' Hs)
    as (rows & Hlen & -> & _).
  unfold Plotting.plot_pes. plt_exec Hlib.
  do 3 eexists. split; [rewrite <- !app_assoc; reflexivity|].
  split; [reflexivity|]. split; [reflexivity|].
  split; [rewrite length_map; exact Hlen|]. split; [rewrite length_map; exact Hlen|].
  split; [reflexivity|]. split; [|split]; simpl; disj.
Qed.

(** X7: [plot_energy_error] on the dictionary of a successful [scan_pes]
    draws a single data curve: the errors in mHa ([1000 * error], each
    non-negative, one per point) against the scanned distances, together
    with the 1.6 mHa chemical-accuracy line; the title and the file name
    carry the molecule name, and fall back to [VQE Energy Error] and
    [energy_error.png] when the name is empty. *)
Theorem plot_energy_error_after_scan (Hlib : forall tr c, lib tr c = None)
    (builder : R -> result (QubitOp * Problem)) (ds : list R) (name : string)
    (reps maxiter : nat) (seed : Z) (w : World) (table : Table) (w' : World)
    (molecule_name save_dir : string) (tr : list Call) :
  scan_pes builder ds name reps maxiter seed w = (Ok table, w') ->
  exists calls es,
    plot_energy_error table molecule_name save_dir tr = (inl tt, app tr calls) /\
    lookup "errors" table = Some es /\ length es = length ds /\
    Forall (fun e => 0 <= e * 1000)%R es /\
    (forall ax xs ys fmt kw, In (Plot ax xs ys fmt kw) calls ->
       ax = 0 /\ xs = ds /\ ys = map (fun e => e * 1000)%R es) /\
    In (Plot 0 ds (map (fun e => e * 1000)%R es) "o-"
          [("color", AS "#E74C3C"); ("linewidth", AR 2); ("markersize", AR 8)])
       calls /\
    In (Axhline 0 (16 / 10)
          [("color", AS "#2ECC71"); ("linestyle", AS "--");
           ("linewidth", AR (15 / 10)); ("alpha", AR (7 / 10));
           ("label", AS "Chemical accuracy (1.6 mHa)")]) calls /\
    In (SetTitle 0 (if String.eqb molecule_name "" then "VQE Energy Error"
                    else molecule_name ++ ": VQE Energy Error") []) calls /\
    In (Savefig save_dir
          (if String.eqb molecule_name "" then "energy_error.png"
           else "energy_error_" ++ file_slug molecule_name ++ ".png")
          [("dpi", AR 150)]) calls.
Proof.
  intros Hs.
  destruct (scan_pes_rows QubitOp Problem num_qubits nuclear_repulsion_energy
              num_parameters Gen default_rng next_double
              compute_minimum_eigenvalue numpy_minimum_eigenvalue format_fixed
              builder ds name reps maxiter seed w table w' Hs)
    as (rows & Hlen & -> & Hk).
  unfold Plotting.plot_energy_error. plt_exec Hlib.
  do 2 eexists. split; [rewrite <- !app_assoc; reflexivity|].
  split; [reflexivity|]. split; [rewrite length_map; exact Hlen|].
  split; [|split].
  - apply Forall_forall. intros e He.
    destruct (In_nth _ _ 0%R He) as (k & Hkl & Hke).
    rewrite length_map in Hkl. rewrite nth_map_row in Hke by reflexivity.
    destruct (point_outcome_ok QubitOp Problem num_qubits nuclear_repulsion_energy
                num_parameters Gen default_rng next_double
                compute_minimum_eigenvalue numpy_minimum_eigenvalue builder name
                reps maxiter seed k (nth k ds 0%R) (nth k rows row0)
                (Hk k ltac:(lia))) as (op & pb & vr & ex & _ & _ & _ & Hr).
    rewrite <- Hke, Hr. simpl. pose proof (Rabs_pos
      (energy vr + nuclear_repulsion_energy pb - (ex + nuclear_repulsion_energy pb))).
    lra.
  - intros ax xs ys fmt kw Hin. simpl in Hin.
    repeat destruct Hin as [Hin|Hin]; try discriminate; try contradiction;
      injection Hin; intros; subst; auto.
  - simpl. tauto.
Qed.

Lemma nth_error_axes (n i : nat) :
  i < n -> nth_error (map AxObj (seq 0 n)) i = Some (AxObj i).
Proof.
  intros H. rewrite nth_error_map, nth_error_seq.
  apply Nat.ltb_lt in H. rewrite H. reflexivity.
Qed.

(** One iteration of the loop of [plot_multi_molecule_comparison] on the
    axes [0 .. n-1]. *)
Lemma multi_body_ok (Hlib : forall tr c, lib tr c = None) (n i : nat)
    (name : string) (t : Table) (xs ys vs : list R) (tr : list Call) :
  i < n ->
  lookup "distances" t = Some xs -> lookup "exact_energies" t = Some ys ->
  lookup "vqe_energies" t = Some vs ->
  Plotting.multi_body lib (AxArray (map AxObj (seq 0 n))) i (name, t) tr =
  (inl tt, app tr
     [Plot i xs ys "o-"
        [("color", AS (nth (i mod 3) Plotting.colors_exact ""));
         ("linewidth", AR 2); ("markersize", AR 5); ("label", AS "Exact (FCI)")];
      Plot i xs vs "s--"
        [("color", AS (nth (i mod 3) Plotting.colors_vqe ""));
         ("linewidth", AR 2); ("markersize", AR 5); ("alpha", AR (8 / 10));
         ("label", AS "VQE")];
      SetXlabel i "Distance / Angle" [("fontsize", AR 11)];
      SetYlabel i "Energy (Ha)" [("fontsize", AR 11)];
      SetTitle i name [("fontsize", AR 12)];
      Legend i [("fontsize", AR 9)];
      Grid i true [("alpha", AR (3 / 10))]]).
Proof.
  intros Hi Hd Hx Hv. unfold Plotting.multi_body, Plt.getindex.
  rewrite (nth_error_axes n i Hi). unfold Plt.getitem. rewrite Hd, Hx, Hv.
  plt_exec Hlib. rewrite <- !app_assoc. reflexivity.
Qed.

(** X8: [plot_multi_molecule_comparison] on a non-empty dictionary whose
    entries all have [distances], [exact_energies] and [vqe_energies] opens
    one row of one subplot per molecule (a single molecule included, whose
    lone axes object is wrapped in a list) and draws molecule [i] of the
    dictionary order on subplot [i]: its exact and VQE curves in the colours
    [colors_exact[i % 3]] and [colors_vqe[i % 3]], titled with its name.
    It never indexes the axes out of range, and it saves
    [multi_molecule_comparison.png] whatever the molecules. *)
Theorem plot_multi_molecule_comparison_ok (Hlib : forall tr c, lib tr c = None)
    (results_dict : list (string * Table)) (save_dir : string) (tr : list Call) :
  results_dict <> [] ->
  Forall (fun item => lookup "distances" (snd item) <> None /\
                      lookup "exact_energies" (snd item) <> None /\
                      lookup "vqe_energies" (snd item) <> None) results_dict ->
  exists calls,
    plot_multi_molecule_comparison results_dict save_dir tr = (inl tt, app tr calls) /\
    In (Subplots 1 (length results_dict) (6 * INR (length results_dict), 5)%R) calls /\
    (forall i name t xs ys vs, nth_error results_dict i = Some (name, t) ->
       lookup "distances" t = Some xs -> lookup "exact_energies" t = Some ys ->
       lookup "vqe_energies" t = Some vs ->
       In (Plot i xs ys "o-"
             [("color", AS (nth (i mod 3) Plotting.colors_exact ""));
              ("linewidth", AR 2); ("markersize", AR 5);
              ("label", AS "Exact (FCI)")]) calls /\
       In (Plot i xs vs "s--"
             [("color", AS (nth (i mod 3) Plotting.colors_vqe ""));
              ("linewidth", AR 2); ("markersize", AR 5); ("alpha", AR (8 / 10));
              ("label", AS "VQE")]) calls /\
       In (SetTitle i name [("fontsize", AR 12)]) calls) /\
    In (Savefig save_dir "multi_molecule_comparison.png"
          [("dpi", AR 150); ("bbox_inches", AS "tight")]) calls.
Proof.
  intros Hne Hall.
  set (n := length results_dict).
  assert (Hn : n <> 0) by (unfold n; destruct results_dict; [contradiction|discriminate]).
  assert (Hax : (if Nat.eqb n 1 then
                   AxArray [if Nat.eqb (1 * n) 1 then AxObj 0
                            else AxArray (map AxObj (seq 0 (1 * n)))]
                 else if Nat.eqb (1 * n) 1 then AxObj 0
                      else AxArray (map AxObj (seq 0 (1 * n))))
                = AxArray (map AxObj (seq 0 n))).
  { rewrite Nat.mul_1_l. destruct (Nat.eqb n 1) eqn:E; [|reflexivity].
    apply Nat.eqb_eq in E. rewrite E. reflexivity. }
  set (Q := fun (j : nat) (item : string * Table) (o : list Call) =>
    exists xs ys vs,
      lookup "distances" (snd item) = Some xs /\
      lookup "exact_energies" (snd item) = Some ys /\
      lookup "vqe_energies" (snd item) = Some vs /\
      o = [Plot j xs ys "o-"
             [("color", AS (nth (j mod 3) Plotting.colors_exact ""));
              ("linewidth", AR 2); ("markersize", AR 5);
              ("label", AS "Exact (FCI)")];
           Plot j xs vs "s--"
             [("color", AS (nth (j mod 3) Plotting.colors_vqe ""));
              ("linewidth", AR 2); ("markersize", AR 5); ("alpha", AR (8 / 10));
              ("label", AS "VQE")];
           SetXlabel j "Distance / Angle" [("fontsize", AR 11)];
           SetYlabel j "Energy (Ha)" [("fontsize", AR 11)];
           SetTitle j (fst item) [("fontsize", AR 12)];
           Legend j [("fontsize", AR 9)];
           Grid j true [("alpha", AR (3 / 10))]]).
  assert (Hbody : forall j x, nth_error results_dict j = Some x -> forall tr0,
      exists o, Plotting.multi_body lib (AxArray (map AxObj (seq 0 n))) (0 + j) x tr0
                = (inl tt, app tr0 o) /\ Q (0 + j) x o).
  { intros j [nm t] Hj tr0.
    assert (Hjn : j < n) by (apply nth_error_Some; congruence).
    pose proof (proj1 (Forall_forall _ _) Hall _ (nth_error_In _ _ Hj))
      as (Hd & Hx & Hv). simpl in Hd, Hx, Hv.
    destruct (lookup "distances" t) as [xs|] eqn:Ed; [|contradiction].
    destruct (lookup "exact_energies" t) as [ys|] eqn:Ex; [|contradiction].
    destruct (lookup "vqe_energies" t) as [vs|] eqn:Ev; [|contradiction].
    eexists. split; [apply (multi_body_ok Hlib n); eassumption|].
    exists xs, ys, vs. split; [exact Ed|]. split; [exact Ex|].
    split; [exact Ev|]. reflexivity. }
  destruct (for_enumerate_spec (Plotting.multi_body lib (AxArray (map AxObj (seq 0 n))))
              Q results_dict 0 Hbody
              (app (app tr [Mkdir save_dir true])
                 [Subplots 1 n (6 * INR n, 5)%R]))
    as (calls & Hc & _ & Hin).
  unfold Plotting.plot_multi_molecule_comparison.
  rewrite (bind_call_ok Hlib). cbv beta. fold n.
  unfold Plotting.subplots. rewrite bind_assoc, (bind_call_ok Hlib). cbv beta.
  rewrite bind_ret. cbv beta zeta. rewrite Hax.
  rewrite (bind_ok_eq _ _ _ _ _ Hc). plt_exec Hlib.
  eexists. split; [rewrite <- !app_assoc; reflexivity|].
  split; [simpl; disj|]. split.
  - intros i nm t xs ys vs Hi Hd Hx Hv.
    destruct (Hin i (nm, t) Hi) as (o & (xs' & ys' & vs' & Hd' & Hx' & Hv' & ->) & Hinc).
    simpl in Hd', Hx', Hv'. rewrite Hd' in Hd. rewrite Hx' in Hx. rewrite Hv' in Hv.
    injection Hd as <-. injection Hx as <-. injection Hv as <-.
    split; [|split]; apply in_or_app; right; apply in_or_app; right;
      apply in_or_app; left; apply Hinc; simpl; disj.
  - apply in_or_app. right. apply in_or_app. right. apply in_or_app. right.
    simpl. disj.
Qed.

Lemma ansatz_vqe_body_ok (Hlib : forall tr c, lib tr c = None) (ax : nat)
    (distances : list R) (j : nat) (a : string) (t : Table) (vs : list R)
    (tr : list Call) :
  lookup "vqe_energies" t = Some vs ->
  Plotting.ansatz_vqe_body lib ax distances j (a, t) tr =
  (inl tt, app tr
     [Plot ax distances vs "s--"
        [("color", AS (Plotting.color_of a)); ("linewidth", AR 2);
         ("markersize", AR 5); ("alpha", AR (8 / 10));
         ("label", AS ("VQE (" ++ a ++ ")"))]]).
Proof.
  intros Hv. unfold Plotting.ansatz_vqe_body, Plt.getitem. rewrite Hv.
  plt_exec Hlib. reflexivity.
Qed.

Lemma ansatz_error_body_ok (Hlib : forall tr c, lib tr c = None) (ax1 : nat)
    (distances : list R) (j : nat) (a : string) (t : Table) (es : list R)
    (tr : list Call) :
  lookup "errors" t = Some es ->
  Plotting.ansatz_error_body lib ax1 distances j (a, t) tr =
  (inl tt, app tr
     [Plot ax1 distances (map (fun e => e * 1000)%R es) "o-"
        [("color", AS (Plotting.color_of a)); ("linewidth", AR 2);
         ("markersize", AR 6); ("label", AS a)]]).
Proof.
  intros He. unfold Plotting.ansatz_error_body, Plt.getitem. rewrite He.
  plt_exec Hlib. reflexivity.
Qed.

Ltac split_in Hin :=
  repeat match type of Hin with
         | _ \/ _ => destruct Hin as [Hin|Hin]
         | In _ (app _ _) => apply in_app_or in Hin
         | In _ (_ :: _) => simpl in Hin
         | In _ [] => destruct Hin
         | False => destruct Hin
         end.

Lemma for_enumerate_exact {A} (body : nat -> A -> PM unit) (f : A -> Call)
    (l : list A) :
  forall i tr,
  (forall j x tr0, In x l -> body j x tr0 = (inl tt, app tr0 [f x])) ->
  Plotting.for_enumerate body i l tr = (inl tt, app tr (map f l)).
Proof.
  induction l as [|x l IH]; intros i tr H.
  - cbn [Plotting.for_enumerate map]. rewrite app_nil_r. reflexivity.
  - cbn [Plotting.for_enumerate map]. unfold Plt.bind at 1.
    rewrite H by (left; reflexivity).
    rewrite IH by (intros j y tr0 Hy; apply H; right; exact Hy).
    rewrite <- app_assoc. reflexivity.
Qed.

Lemma filter_plots_map {A} (f : A -> Call) (l : list A) :
  (forall x, is_plot (f x) = true) -> filter is_plot (map f l) = map f l.
Proof.
  intros Hf. induction l as [|x l IH]; [reflexivity|].
  cbn [map filter]. rewrite Hf, IH. reflexivity.
Qed.

Lemma map_combine_fst {T C} (l : list (string * Table)) (v : string * Table -> T)
    (h : string * T -> C) :
  map (fun x => h (fst x, v x)) l = map h (combine (map fst l) (map v l)).
Proof. induction l as [|x l IH]; [reflexivity|]. simpl. rewrite IH. reflexivity. Qed.

(** X11: [plot_ansatz_comparison] on a non-empty dictionary whose entries
    all have [vqe_energies] and [errors], the first one also [distances] and
    [exact_energies], draws the exact curve of the first entry and, for each
    ansatz in dictionary order, its VQE curve on the left axes and its error
    curve in mHa on the right axes, in the ansatz's colour ([#FF6B6B] for
    [RealAmplitudes], [#4ECDC4] for [EfficientSU2], [gray] otherwise).
    Every curve is drawn against the first entry's distances, and these are
    all the curves, in this order: the exact one, the VQE curves in
    dictionary order, then the error curves in dictionary order.  The file is
    [ansatz_comparison_<name.lower()>.png]: spaces in the name are kept,
    unlike in the other plots' file names. *)
Theorem plot_ansatz_comparison_ok (Hlib : forall tr c, lib tr c = None)
    (k0 : string) (t0 : Table) (rest : list (string * Table))
    (molecule_name save_dir : string) (tr : list Call) (xs0 ys0 : list R) :
  lookup "distances" t0 = Some xs0 -> lookup "exact_energies" t0 = Some ys0 ->
  Forall (fun item => lookup "vqe_energies" (snd item) <> None /\
                      lookup "errors" (snd item) <> None) ((k0, t0) :: rest) ->
  exists calls,
    plot_ansatz_comparison ((k0, t0) :: rest) molecule_name save_dir tr =
      (inl tt, app tr calls) /\
    (forall ax xs ys fmt kw, In (Plot ax xs ys fmt kw) calls -> xs = xs0) /\
    In (Plot 0 xs0 ys0 "o-" [("color", AS "#2C3E50"); ("linewidth", AR 2);
                              ("markersize", AR 5); ("label", AS "Exact (FCI)")])
       calls /\
    (forall j a t vs es, nth_error ((k0, t0) :: rest) j = Some (a, t) ->
       lookup "vqe_energies" t = Some vs -> lookup "errors" t = Some es ->
       In (Plot 0 xs0 vs "s--"
             [("color", AS (Plotting.color_of a)); ("linewidth", AR 2);
              ("markersize", AR 5); ("alpha", AR (8 / 10));
              ("label", AS ("VQE (" ++ a ++ ")"))]) calls /\
       In (Plot 1 xs0 (map (fun e => e * 1000)%R es) "o-"
             [("color", AS (Plotting.color_of a)); ("linewidth", AR 2);
              ("markersize", AR 6); ("label", AS a)]) calls) /\
    Plotting.color_of "RealAmplitudes" = "#FF6B6B" /\
    Plotting.color_of "EfficientSU2" = "#4ECDC4" /\
    (forall a, a <> "RealAmplitudes" -> a <> "EfficientSU2" ->
       Plotting.color_of a = "gray") /\
    In (Savefig save_dir ("ansatz_comparison_" ++ py_lower molecule_name ++ ".png")
          [("dpi", AR 150)]) calls /\
    exists vss ess,
      map (fun item => lookup "vqe_energies" (snd item)) ((k0, t0) :: rest)
        = map Some vss /\
      map (fun item => lookup "errors" (snd item)) ((k0, t0) :: rest)
        = map Some ess /\
      plot_calls calls =
        Plot 0 xs0 ys0 "o-" [("color", AS "#2C3E50"); ("linewidth", AR 2);
                             ("markersize", AR 5); ("label", AS "Exact (FCI)")] ::
        app (map (fun p => Plot 0 xs0 (snd p) "s--"
                     [("color", AS (Plotting.color_of (fst p))); ("linewidth", AR 2);
                      ("markersize", AR 5); ("alpha", AR (8 / 10));
                      ("label", AS ("VQE (" ++ fst p ++ ")"))])
               (combine (map fst ((k0, t0) :: rest)) vss))
            (map (fun p => Plot 1 xs0 (map (fun e => e * 1000)%R (snd p)) "o-"
                     [("color", AS (Plotting.color_of (fst p))); ("linewidth", AR 2);
                      ("markersize", AR 6); ("label", AS (fst p))])
               (combine (map fst ((k0, t0) :: rest)) ess)).
Proof.
  intros Hd Hx Hall.
  set (d := (k0, t0) :: rest).
  set (Q1 := fun (_ : nat) (item : string * Table) (o : list Call) =>
    exists vs, lookup "vqe_energies" (snd item) = Some vs /\
      o = [Plot 0 xs0 vs "s--"
             [("color", AS (Plotting.color_of (fst item))); ("linewidth", AR 2);
              ("markersize", AR 5); ("alpha", AR (8 / 10));
              ("label", AS ("VQE (" ++ fst item ++ ")"))]]).
  set (Q2 := fun (_ : nat) (item : string * Table) (o : list Call) =>
    exists es, lookup "errors" (snd item) = Some es /\
      o = [Plot 1 xs0 (map (fun e => e * 1000)%R es) "o-"
             [("color", AS (Plotting.color_of (fst item))); ("linewidth", AR 2);
              ("markersize", AR 6); ("label", AS (fst item))]]).
  assert (H1 : forall j x, nth_error d j = Some x -> forall tr0, exists o,
      Plotting.ansatz_vqe_body lib 0 xs0 (0 + j) x tr0 = (inl tt, app tr0 o) /\
      Q1 (0 + j) x o).
  { intros j [a t] Hj tr0.
    pose proof (proj1 (Forall_forall _ _) Hall _ (nth_error_In _ _ Hj))
      as [Hv _]. simpl in Hv.
    destruct (lookup "vqe_energies" t) as [vs|] eqn:Ev; [|contradiction].
    eexists. split; [apply (ansatz_vqe_body_ok Hlib); exact Ev|].
    exists vs. split; [exact Ev | reflexivity]. }
  assert (H2 : forall j x, nth_error d j = Some x -> forall tr0, exists o,
      Plotting.ansatz_error_body lib 1 xs0 (0 + j) x tr0 = (inl tt, app tr0 o) /\
      Q2 (0 + j) x o).
  { intros j [a t] Hj tr0.
    pose proof (proj1 (Forall_forall _ _) Hall _ (nth_error_In _ _ Hj))
      as [_ He]. simpl in He.
    destruct (lookup "errors" t) as [es|] eqn:Ee; [|contradiction].
    eexists. split; [apply (ansatz_error_body_ok Hlib); exact Ee|].
    exists es. split; [exact Ee | reflexivity]. }
  assert (Hf : Plotting.first_key_of d = Plt.ret k0) by reflexivity.
  assert (Hg : Plotting.dict_getitem d k0 = Plt.ret t0).
  { unfold d, Plotting.dict_getitem. simpl. rewrite String.eqb_refl. reflexivity. }
  assert (Hgd : Plt.getitem t0 "distances" = Plt.ret xs0)
    by (unfold Plt.getitem; rewrite Hd; reflexivity).
  assert (Hgx : Plt.getitem t0 "exact_energies" = Plt.ret ys0)
    by (unfold Plt.getitem; rewrite Hx; reflexivity).
  pose (vq := fun item : string * Table =>
    match lookup "vqe_energies" (snd item) with Some v => v | None => [] end).
  pose (ve := fun item : string * Table =>
    match lookup "errors" (snd item) with Some v => v | None => [] end).
  pose (g1 := fun item : string * Table =>
    Plot 0 xs0 (vq item) "s--"
      [("color", AS (Plotting.color_of (fst item))); ("linewidth", AR 2);
       ("markersize", AR 5); ("alpha", AR (8 / 10));
       ("label", AS ("VQE (" ++ fst item ++ ")"))]).
  pose (g2 := fun item : string * Table =>
    Plot 1 xs0 (map (fun e => e * 1000)%R (ve item)) "o-"
      [("color", AS (Plotting.color_of (fst item))); ("linewidth", AR 2);
       ("markersize", AR 6); ("label", AS (fst item))]).
  assert (Hb1 : forall j x tr0, In x d ->
      Plotting.ansatz_vqe_body lib 0 xs0 j x tr0 = (inl tt, app tr0 [g1 x])).
  { intros j [a t] tr0 Hin.
    pose proof (proj1 (Forall_forall _ _) Hall _ Hin) as [Hv _]. simpl in Hv.
    unfold g1, vq. simpl fst; simpl snd.
    destruct (lookup "vqe_energies" t) as [vs|] eqn:Ev; [|contradiction].
    apply (ansatz_vqe_body_ok Hlib). exact Ev. }
  assert (Hb2 : forall j x tr0, In x d ->
      Plotting.ansatz_error_body lib 1 xs0 j x tr0 = (inl tt, app tr0 [g2 x])).
  { intros j [a t] tr0 Hin.
    pose proof (proj1 (Forall_forall _ _) Hall _ Hin) as [_ He]. simpl in He.
    unfold g2, ve. simpl fst; simpl snd.
    destruct (lookup "errors" t) as [es|] eqn:Ee; [|contradiction].
    apply (ansatz_error_body_ok Hlib). exact Ee. }
  unfold Plotting.plot_ansatz_comparison. rewrite Hf. plt_exec Hlib.
  rewrite Hg. plt_exec Hlib. rewrite Hgd. plt_exec Hlib.
  rewrite Hgx. plt_exec Hlib.
  lazymatch goal with
  | |- context [Plt.bind (Plotting.for_enumerate _ 0 _) _ ?tr1] =>
      destruct (for_enumerate_spec _ Q1 d 0 H1 tr1) as (calls1 & Hc1 & Hin1 & Hall1);
      pose proof (for_enumerate_exact _ g1 d 0 tr1 Hb1) as Ex1;
      rewrite Hc1 in Ex1; injection Ex1 as Ex1; apply app_inv_head in Ex1;
      rewrite (bind_ok_eq _ _ _ _ _ Hc1)
  end.
  plt_exec Hlib.
  lazymatch goal with
  | |- context [Plt.bind (Plotting.for_enumerate _ 0 _) _ ?tr2] =>
      destruct (for_enumerate_spec _ Q2 d 0 H2 tr2) as (calls2 & Hc2 & Hin2 & Hall2);
      pose proof (for_enumerate_exact _ g2 d 0 tr2 Hb2) as Ex2;
      rewrite Hc2 in Ex2; injection Ex2 as Ex2; apply app_inv_head in Ex2;
      rewrite (bind_ok_eq _ _ _ _ _ Hc2)
  end.
  plt_exec Hlib.
  eexists. split; [rewrite <- !app_assoc; reflexivity|].
  split; [|split; [|split; [|split; [reflexivity|split; [reflexivity|split]]]]].
  - intros ax xs ys fmt kw Hin. split_in Hin; try discriminate;
      try (injection Hin; intros; subst; reflexivity).
    + destruct (Hin1 _ Hin) as (j & x & o & _ & (vs & _ & ->) & Ho).
      split_in Ho; [injection Ho; intros; subst; reflexivity].
    + destruct (Hin2 _ Hin) as (j & x & o & _ & (es & _ & ->) & Ho).
      split_in Ho; [injection Ho; intros; subst; reflexivity].
  - simpl. disj.
  - intros j a t vs es Hj Hv He.
    destruct (Hall1 j (a, t) Hj) as (o1 & (vs' & Hv' & ->) & Hinc1).
    destruct (Hall2 j (a, t) Hj) as (o2 & (es' & He' & ->) & Hinc2).
    simpl in Hv', He'. rewrite Hv' in Hv. rewrite He' in He.
    injection Hv as <-. injection He as <-. simpl fst in Hinc1, Hinc2.
    pose proof (Hinc1 _ (or_introl eq_refl)) as Hi1.
    pose proof (Hinc2 _ (or_introl eq_refl)) as Hi2.
    do 6 (simpl; rewrite ?in_app_iff). split; disj.
  - intros a H1a H2a. unfold Plotting.color_of, Plotting.ansatz_colors.
    cbn [dict_lookup]. apply String.eqb_neq in H1a, H2a.
    rewrite (String.eqb_sym "RealAmplitudes" a), H1a.
    rewrite (String.eqb_sym "EfficientSU2" a), H2a. reflexivity.
  - split; [do 6 (simpl; rewrite ?in_app_iff); disj|].
    exists (map vq d), (map ve d). split; [|split].
    + rewrite map_map. apply map_ext_in. intros [a t] Hin.
      pose proof (proj1 (Forall_forall _ _) Hall _ Hin) as [Hv _]. simpl in Hv |- *.
      unfold vq; simpl. destruct (lookup "vqe_energies" t); [reflexivity|contradiction].
    + rewrite map_map. apply map_ext_in. intros [a t] Hin.
      pose proof (proj1 (Forall_forall _ _) Hall _ Hin) as [_ He]. simpl in He |- *.
      unfold ve; simpl. destruct (lookup "errors" t); [reflexivity|contradiction].
    + assert (Ec1 : calls1 = map g1 d) by exact Ex1.
      assert (Ec2 : calls2 = map g2 d) by exact Ex2.
      rewrite Ec1, Ec2. unfold plot_calls. rewrite !filter_app.
      rewrite (filter_plots_map g1), (filter_plots_map g2) by reflexivity.
      cbn [filter is_plot app]. rewrite ?app_nil_r.
      rewrite <- (map_combine_fst d vq), <- (map_combine_fst d ve).
      reflexivity.
Qed.

End PlotProofs.

(** ** Witnesses of the further properties on the concrete instance *)

Lemma run_vqe_output_witness :
  exists vo w',
    Demo.run_vqe tt "RealAmplitudes" 3 200 42 [] = (Ok vo, w') /\
    w' = [] /\ (0 <= 42)%Z /\
    exists a ip res calls,
      Demo.compute_minimum_eigenvalue (mkVQE a (mkCOBYLA 200) ip) tt = Ok (res, calls) /\
      ansatz_num_qubits a = Demo.num_qubits tt /\ ansatz_reps a = 3 /\
      energy vo = eigenvalue_real res /\
      optimal_params vo = optimal_parameters res /\
      energy_history vo = map cb_value calls /\
      length (energy_history vo) = length calls /\
      num_params vo = Demo.num_parameters a /\
      ansatz_type vo = "RealAmplitudes".
Proof.
  do 2 eexists. split; [reflexivity|].
  eapply (run_vqe_output unit Demo.num_qubits Demo.num_parameters nat
            Demo.default_rng Demo.next_double Demo.compute_minimum_eigenvalue
            tt "RealAmplitudes" 3 200 42 []).
  reflexivity.
Defined.

Lemma scan_pes_unknown_ansatz_witness :
  "bogus" <> "RealAmplitudes" /\ "bogus" <> "EfficientSU2" /\
  fst (Demo.scan_pes Demo.builder [1; 2]%R "bogus" 3 200 42 []) =
  match Demo.builder 1%R with
  | Ok _ => Err (ValueError ("Unknown ansatz type: " ++ "bogus"))
  | Err e => Err e
  end.
Proof.
  split; [discriminate|]. split; [discriminate|].
  apply (scan_pes_unknown_ansatz unit unit Demo.num_qubits
           Demo.nuclear_repulsion_energy Demo.num_parameters nat
           Demo.default_rng Demo.next_double Demo.compute_minimum_eigenvalue
           Demo.numpy_minimum_eigenvalue Demo.format_fixed Demo.builder
           "bogus" 3 200 42 1%R [2%R] []); discriminate.
Defined.

Lemma builders_qubit_count_witness :
  (forall ne no p p', Demo.active_space_transform ne no p = Ok p' -> p' = no) /\
  (forall p q, Demo.jordan_wigner_map (Demo.second_q_op p) = Ok q -> q = 2 * p) /\
  Demo.build_lih 1%R = Ok (6, 3) /\ Demo.build_beh2 104%R = Ok (6, 3) /\
  Demo.build_h2 1%R = Ok (12, 6) /\
  (forall d q p, Demo.build_lih d = Ok (q, p) ->
     q = 6 /\ p = 3 /\
     exists p0,
       Demo.pyscf_run (Molecules.sto3g_driver
                         ("Li 0.0 0.0 0.0; H 0.0 0.0 " ++ Demo.py_str d))
         = Ok p0 /\ Demo.active_space_transform 2 3 p0 = Ok p) /\
  (forall angle q p, Demo.build_beh2 angle = Ok (q, p) ->
     q = 6 /\ p = 3 /\
     exists p0,
       Demo.pyscf_run (Molecules.sto3g_driver
                         (beh2_atom_string Demo.format_fixed angle))
         = Ok p0 /\ Demo.active_space_transform 2 3 p0 = Ok p) /\
  (forall d q p, Demo.build_h2 d = Ok (q, p) ->
     q = 2 * p /\
     Demo.pyscf_run (Molecules.sto3g_driver
                       ("H 0.0 0.0 0.0; H 0.0 0.0 " ++ Demo.py_str d))
       = Ok p).
Proof.
  assert (Htr : forall ne no p p', Demo.active_space_transform ne no p = Ok p' -> p' = no)
    by (intros ne no p p' H; injection H as <-; reflexivity).
  assert (Hjw : forall p q, Demo.jordan_wigner_map (Demo.second_q_op p) = Ok q ->
                  q = 2 * p)
    by (intros p q H; injection H as <-; reflexivity).
  split; [exact Htr|]. split; [exact Hjw|].
  split; [reflexivity|]. split; [reflexivity|]. split; [reflexivity|].
  exact (builders_qubit_count nat nat nat Demo.pyscf_run Demo.second_q_op
           Demo.jordan_wigner_map Demo.active_space_transform Demo.py_str
           Demo.format_fixed (fun p => p) (fun q => q) Htr Hjw).
Defined.

Lemma plot_mkdir_failure_witness :
  Demo.lib_dir_is_file [] (Mkdir "results" true) =
    Some ("FileExistsError", "[Errno 17] File exists") /\
  let failed := (inr (PlotLibError "FileExistsError" "[Errno 17] File exists"),
                 app [] [Mkdir "results" true]) in
  Plotting.plot_pes Demo.lib_dir_is_file [] "H2" "results" [] = failed /\
  Plotting.plot_energy_error Demo.lib_dir_is_file [] "H2" "results" [] = failed /\
  Plotting.plot_multi_molecule_comparison Demo.lib_dir_is_file [] "results" [] = failed /\
  Plotting.plot_ansatz_comparison Demo.lib_dir_is_file [] "H2" "results" [] = failed.
Proof.
  split; [reflexivity|].
  exact (plot_mkdir_failure Demo.lib_dir_is_file "results" "H2" []
           "FileExistsError" "[Errno 17] File exists" [] [] eq_refl).
Defined.

Lemma plot_ansatz_comparison_empty_witness :
  (forall tr c, Demo.lib tr c = None) /\
  Plotting.plot_ansatz_comparison Demo.lib [] "LiH" "results" [] =
  (inr (IndexError "list index out of range"),
   app [] [Mkdir "results" true; Subplots 1 2 (14, 5)%R]).
Proof.
  split; [reflexivity|].
  exact (plot_ansatz_comparison_empty Demo.lib (fun _ _ => eq_refl) "LiH" "results" []).
Defined.

Lemma plot_pes_missing_key_witness :
  (forall tr c, Demo.lib tr c = None) /\
  (lookup "distances" [("distances", [1%R])] = None \/
   lookup "exact_energies" [("distances", [1%R])] = None \/
   lookup "vqe_energies" [("distances", [1%R])] = None) /\
  exists key calls,
    Plotting.plot_pes Demo.lib [("distances", [1%R])] "H2" "results" [] =
      (inr (KeyError key), app [] calls) /\
    lookup key [("distances", [1%R])] = None /\
    In (Mkdir "results" true) calls /\ In (Subplots 1 1 (10, 6)%R) calls /\
    ~ In Close calls /\ (forall d f kw, ~ In (Savefig d f kw) calls).
Proof.
  split; [reflexivity|]. split; [right; left; reflexivity|].
  exact (plot_pes_missing_key Demo.lib (fun _ _ => eq_refl) [("distances", [1%R])]
           "H2" "results" [] (or_intror (or_introl eq_refl))).
Defined.

Lemma plot_pes_after_scan_witness :
  (forall tr c, Demo.lib tr c = None) /\
  exists table w',
    Demo.scan_pes Demo.builder [1; 2]%R "RealAmplitudes" 3 200 42 [] = (Ok table, w') /\
    exists calls xs vs,
      Plotting.plot_pes Demo.lib table "H2" "results" [] = (inl tt, app [] calls) /\
      lookup "exact_energies" table = Some xs /\
      lookup "vqe_energies" table = Some vs /\
      length xs = length [1; 2]%R /\ length vs = length [1; 2]%R /\
      plot_calls calls =
        [Plot 0 [1; 2]%R xs "o-" [("color", AS "#2C3E50"); ("linewidth", AR 2);
                                  ("markersize", AR 6); ("label", AS "Exact (FCI)")];
         Plot 0 [1; 2]%R vs "s--" [("color", AS "#FF6B6B"); ("linewidth", AR 2);
                                   ("markersize", AR 6); ("alpha", AR (8 / 10));
                                   ("label", AS "VQE")]] /\
      In (SetTitle 0 ("H2" ++ " Potential Energy Surface") []) calls /\
      In (Savefig "results" ("pes_" ++ file_slug "H2" ++ ".png")
            [("dpi", AR 150)]) calls /\
      In Close calls.
Proof.
  split; [reflexivity|]. do 2 eexists. split; [reflexivity|].
  eapply (plot_pes_after_scan Demo.lib unit unit Demo.num_qubits
            Demo.nuclear_repulsion_energy Demo.num_parameters nat
            Demo.default_rng Demo.next_double Demo.compute_minimum_eigenvalue
            Demo.numpy_minimum_eigenvalue Demo.format_fixed (fun _ _ => eq_refl)
            Demo.builder [1; 2]%R "RealAmplitudes" 3 200 42 []).
  reflexivity.
Defined.

Lemma plot_energy_error_after_scan_witness :
  (forall tr c, Demo.lib tr c = None) /\
  exists table w',
    Demo.scan_pes Demo.builder [1; 2]%R "EfficientSU2" 1 50 7 [] = (Ok table, w') /\
    exists calls es,
      Plotting.plot_energy_error Demo.lib table "" "results" [] = (inl tt, app [] calls) /\
      lookup "errors" table = Some es /\ length es = length [1; 2]%R /\
      Forall (fun e => 0 <= e * 1000)%R es /\
      (forall ax xs ys fmt kw, In (Plot ax xs ys fmt kw) calls ->
         ax = 0 /\ xs = [1; 2]%R /\ ys = map (fun e => e * 1000)%R es) /\
      In (Plot 0 [1; 2]%R (map (fun e => e * 1000)%R es) "o-"
            [("color", AS "#E74C3C"); ("linewidth", AR 2); ("markersize", AR 8)])
         calls /\
      In (Axhline 0 (16 / 10)
            [("color", AS "#2ECC71"); ("linestyle", AS "--");
             ("linewidth", AR (15 / 10)); ("alpha", AR (7 / 10));
             ("label", AS "Chemical accuracy (1.6 mHa)")]) calls /\
      In (SetTitle 0 (if String.eqb "" "" then "VQE Energy Error"
                      else "" ++ ": VQE Energy Error") []) calls /\
      In (Savefig "results"
            (if String.eqb "" "" then "energy_error.png"
             else "energy_error_" ++ file_slug "" ++ ".png")
            [("dpi", AR 150)]) calls.
Proof.
  split; [reflexivity|]. do 2 eexists. split; [reflexivity|].
  eapply (plot_energy_error_after_scan Demo.lib unit unit Demo.num_qubits
            Demo.nuclear_repulsion_energy Demo.num_parameters nat
            Demo.default_rng Demo.next_double Demo.compute_minimum_eigenvalue
            Demo.numpy_minimum_eigenvalue Demo.format_fixed (fun _ _ => eq_refl)
            Demo.builder [1; 2]%R "EfficientSU2" 1 50 7 []).
  reflexivity.
Defined.

Lemma plot_multi_molecule_comparison_witness :
  (forall tr c, Demo.lib tr c = None) /\
  [("H2", [("distances", [1%R]); ("exact_energies", [0%R]); ("vqe_energies", [0%R])])]
    <> [] /\
  Forall (fun item => lookup "distances" (snd item) <> None /\
                      lookup "exact_energies" (snd item) <> None /\
                      lookup "vqe_energies" (snd item) <> None)
    [("H2", [("distances", [1%R]); ("exact_energies", [0%R]); ("vqe_energies", [0%R])])] /\
  exists calls,
    Plotting.plot_multi_molecule_comparison Demo.lib
      [("H2", [("distances", [1%R]); ("exact_energies", [0%R]);
               ("vqe_energies", [0%R])])] "results" [] = (inl tt, app [] calls) /\
    In (Subplots 1 1 (6 * INR 1, 5)%R) calls /\
    (forall i name t xs ys vs,
       nth_error [("H2", [("distances", [1%R]); ("exact_energies", [0%R]);
                          ("vqe_energies", [0%R])])] i = Some (name, t) ->
       lookup "distances" t = Some xs -> lookup "exact_energies" t = Some ys ->
       lookup "vqe_energies" t = Some vs ->
       In (Plot i xs ys "o-"
             [("color", AS (nth (i mod 3) Plotting.colors_exact ""));
              ("linewidth", AR 2); ("markersize", AR 5);
              ("label", AS "Exact (FCI)")]) calls /\
       In (Plot i xs vs "s--"
             [("color", AS (nth (i mod 3) Plotting.colors_vqe ""));
              ("linewidth", AR 2); ("markersize", AR 5); ("alpha", AR (8 / 10));
              ("label", AS "VQE")]) calls /\
       In (SetTitle i name [("fontsize", AR 12)]) calls) /\
    In (Savefig "results" "multi_molecule_comparison.png"
          [("dpi", AR 150); ("bbox_inches", AS "tight")]) calls.
Proof.
  assert (Hf : Forall (fun item => lookup "distances" (snd item) <> None /\
                                   lookup "exact_energies" (snd item) <> None /\
                                   lookup "vqe_energies" (snd item) <> None)
    [("H2", [("distances", [1%R]); ("exact_energies", [0%R]); ("vqe_energies", [0%R])])]).
  { constructor; [simpl; repeat split; discriminate | constructor]. }
  split; [reflexivity|]. split; [discriminate|]. split; [exact Hf|].
  exact (plot_multi_molecule_comparison_ok Demo.lib (fun _ _ => eq_refl)
           [("H2", [("distances", [1%R]); ("exact_energies", [0%R]);
                    ("vqe_energies", [0%R])])] "results" []
           ltac:(discriminate) Hf).
Defined.

Lemma plot_ansatz_comparison_ok_witness :
  (forall tr c, Demo.lib tr c = None) /\
  lookup "distances" [("distances", [1%R]); ("exact_energies", [0%R]);
                      ("vqe_energies", [0%R]); ("errors", [0%R])] = Some [1%R] /\
  lookup "exact_energies" [("distances", [1%R]); ("exact_energies", [0%R]);
                           ("vqe_energies", [0%R]); ("errors", [0%R])] = Some [0%R] /\
  Forall (fun item => lookup "vqe_energies" (snd item) <> None /\
                      lookup "errors" (snd item) <> None)
    [("RealAmplitudes", [("distances", [1%R]); ("exact_energies", [0%R]);
                         ("vqe_energies", [0%R]); ("errors", [0%R])])] /\
  exists calls,
    Plotting.plot_ansatz_comparison Demo.lib
      [("RealAmplitudes", [("distances", [1%R]); ("exact_energies", [0%R]);
                           ("vqe_energies", [0%R]); ("errors", [0%R])])]
      "LiH" "results" [] = (inl tt, app [] calls) /\
    (forall ax xs ys fmt kw, In (Plot ax xs ys fmt kw) calls -> xs = [1%R]) /\
    In (Plot 0 [1%R] [0%R] "o-" [("color", AS "#2C3E50"); ("linewidth", AR 2);
                                  ("markersize", AR 5); ("label", AS "Exact (FCI)")])
       calls /\
    (forall j a t vs es,
       nth_error [("RealAmplitudes", [("distances", [1%R]); ("exact_energies", [0%R]);
                                      ("vqe_energies", [0%R]); ("errors", [0%R])])] j
         = Some (a, t) ->
       lookup "vqe_energies" t = Some vs -> lookup "errors" t = Some es ->
       In (Plot 0 [1%R] vs "s--"
             [("color", AS (Plotting.color_of a)); ("linewidth", AR 2);
              ("markersize", AR 5); ("alpha", AR (8 / 10));
              ("label", AS ("VQE (" ++ a ++ ")"))]) calls /\
       In (Plot 1 [1%R] (map (fun e => e * 1000)%R es) "o-"
             [("color", AS (Plotting.color_of a)); ("linewidth", AR 2);
              ("markersize", AR 6); ("label", AS a)]) calls) /\
    Plotting.color_of "RealAmplitudes" = "#FF6B6B" /\
    Plotting.color_of "EfficientSU2" = "#4ECDC4" /\
    (forall a, a <> "RealAmplitudes" -> a <> "EfficientSU2" ->
       Plotting.color_of a = "gray") /\
    In (Savefig "results" ("ansatz_comparison_" ++ py_lower "LiH" ++ ".png")
          [("dpi", AR 150)]) calls /\
    exists vss ess,
      map (fun item => lookup "vqe_energies" (snd item))
        [("RealAmplitudes", [("distances", [1%R]); ("exact_energies", [0%R]);
                              ("vqe_energies", [0%R]); ("errors", [0%R])])] = map Some vss /\
      map (fun item => lookup "errors" (snd item))
        [("RealAmplitudes", [("distances", [1%R]); ("exact_energies", [0%R]);
                              ("vqe_energies", [0%R]); ("errors", [0%R])])] = map Some ess /\
      plot_calls calls =
        Plot 0 [1%R] [0%R] "o-" [("color", AS "#2C3E50"); ("linewidth", AR 2);
                                 ("markersize", AR 5); ("label", AS "Exact (FCI)")] ::
        app (map (fun p => Plot 0 [1%R] (snd p) "s--"
                     [("color", AS (Plotting.color_of (fst p))); ("linewidth", AR 2);
                      ("markersize", AR 5); ("alpha", AR (8 / 10));
                      ("label", AS ("VQE (" ++ fst p ++ ")"))])
               (combine (map fst [("RealAmplitudes", [("distances", [1%R]); ("exact_energies", [0%R]);
                              ("vqe_energies", [0%R]); ("errors", [0%R])])]) vss))
            (map (fun p => Plot 1 [1%R] (map (fun e => e * 1000)%R (snd p)) "o-"
                     [("color", AS (Plotting.color_of (fst p))); ("linewidth", AR 2);
                      ("markersize", AR 6); ("label", AS (fst p))])
               (combine (map fst [("RealAmplitudes", [("distances", [1%R]); ("exact_energies", [0%R]);
                              ("vqe_energies", [0%R]); ("errors", [0%R])])]) ess)).
Proof.
  assert (Hf : Forall (fun item => lookup "vqe_energies" (snd item) <> None /\
                                   lookup "errors" (snd item) <> None)
    [("RealAmplitudes", [("distances", [1%R]); ("exact_energies", [0%R]);
                         ("vqe_energies", [0%R]); ("errors", [0%R])])]).
  { constructor; [simpl; split; discriminate | constructor]. }
  split; [reflexivity|]. split; [reflexivity|]. split; [reflexivity|].
  split; [exact Hf|].
  exact (plot_ansatz_comparison_ok Demo.lib (fun _ _ => eq_refl) "RealAmplitudes"
           [("distances", [1%R]); ("exact_energies", [0%R]);
            ("vqe_energies", [0%R]); ("errors", [0%R])] [] "LiH" "results" []
           [1%R] [0%R] eq_refl eq_refl Hf).
Defined.

(** C8: two successive calls of [exact_energy] on one operator can differ:
    the second call starts from the ARPACK state the first one left, and
    returns what a call from that state returns, not what the first call
    returned. *)
Lemma exact_energy_state_carried :
  ExactSolver.exact_energy_twice unit bool Demo.arpack_minimum_eigenvalue tt false
    = (Ok ((-1)%R, (-1 + Demo.ulp)%R), false) /\
  ExactSolver.exact_energy unit bool Demo.arpack_minimum_eigenvalue tt false
    = (Ok (-1)%R, true) /\
  ExactSolver.exact_energy unit bool Demo.arpack_minimum_eigenvalue tt true
    = (Ok (-1 + Demo.ulp)%R, false) /\
  (-1)%R <> (-1 + Demo.ulp)%R.
Proof.
  split; [reflexivity|]. split; [reflexivity|]. split; [reflexivity|].
  unfold Demo.ulp. lra.
Qed.

Lemma exact_energy_within_tolerance_witness :
  (forall h st x st', Demo.arpack_minimum_eigenvalue h st = (Ok x, st') ->
     (Rabs (x - (fun _ => (-1)%R) h) <= Demo.ulp)%R) /\
  exists st1,
    ExactSolver.exact_energy unit bool Demo.arpack_minimum_eigenvalue tt false
      = (Ok (-1)%R, st1) /\
    ExactSolver.exact_energy unit bool Demo.arpack_minimum_eigenvalue tt st1
      = (Ok (-1 + Demo.ulp)%R, false) /\
    (Rabs (-1 - (-1 + Demo.ulp)) <= 2 * Demo.ulp)%R.
Proof.
  assert (Hacc : forall h st x st', Demo.arpack_minimum_eigenvalue h st = (Ok x, st') ->
     (Rabs (x - (fun _ => (-1)%R) h) <= Demo.ulp)%R).
  { intros h st x st' H. injection H as <- _.
    assert (Hu : (0 < Demo.ulp)%R) by (unfold Demo.ulp; lra).
    destruct st; unfold Rabs; destruct (Rcase_abs _); lra. }
  split; [exact Hacc|].
  exact (proj2 (exact_energy_within_tolerance unit bool Demo.arpack_minimum_eigenvalue
           (fun _ => (-1)%R) Demo.ulp Hacc tt false) (-1)%R (-1 + Demo.ulp)%R false
           eq_refl).
Defined.
